(** * diGiT-WorLd: sound manager and loading sequence

    A shallow embedding of [src/game/managers/soundmanager.py] and of the
    loading loop of [src/game/main.py], and the properties of the audio
    asset store and of the loading sequencer proved over it.

    The pygame backend is not part of the repository.  Its commands are
    recorded in a trace of effects, and whatever it answers (a decoded
    sound or a [pygame.error], a free channel or none, the pending input
    events) is supplied by an explicit environment. *)

From stdpp Require Import gmap strings list pretty.
From Stdlib Require Import Ascii QArith.

#[local] Set Warnings "-clear-no-such-hyp".

Local Open Scope string_scope.
Local Open Scope Z_scope.
Local Open Scope list_scope.

(** ** The pygame interface, as the two source files use it *)

Module Pygame.

(** [pygame.mixer.Sound] and [pygame.mixer.Channel] objects are opaque
    handles.  Neither class defines a truth value of its own, so a handle
    is truthy and only [None] fails the tests [if not sound] and
    [if channel]. *)
Inductive Sound : Type := SoundObj (id : nat).
Inductive Channel : Type := ChannelObj (id : nat).

Record Surface : Type := { get_width : Z; get_height : Z }.
Inductive Font : Type := FontObj (size : Z).

(** An input event, as far as [event.type == pygame.QUIT] looks at it. *)
Inductive Event : Type := QUIT | OtherEvent (code : nat).

(** A backend call either returns or raises [pygame.error], the one
    exception class the handlers of the source name. *)
Inductive Raises (A : Type) : Type :=
| Ok (a : A)
| error (exc : string).
Arguments Ok {A} a.
Arguments error {A} exc.

(** Commands sent to the backend, to the logger and to the process. *)
Inductive Effect : Type :=
| LogWarning (fmt : string) (args : list string)
| MixerSound (path : string)
| ChannelPlay (channel : Channel) (sound : Sound)
| SoundPlay (sound : Sound)
| SoundSetVolume (sound : Sound) (volume : Q)
| MusicLoad (path : string)
| MusicPlay (loops : Z)
| MusicStop
| MusicPause
| MusicUnpause
| FontNew (size : Z)
| ClockNew
| EventGet
| SurfaceBlit (image : Surface) (dest : Z * Z)
| SurfaceFill (color : Z * Z * Z)
| FontRender (font : Font) (text : string) (color : Z * Z * Z)
| TextBlit (text : string) (center : Z * Z)
| DisplayFlip
| ClockTick (framerate : Z)
| PygameQuit
| SysExit.

(** What the outside world answers at the time of a call. *)
Record Backend : Type := {
  mixer_Sound : string -> Raises Sound;
  mixer_find_channel : option Channel;
  os_path_exists : string -> bool;
  mixer_music_load : string -> Raises unit;
  mixer_music_play : Z -> Raises unit
}.

End Pygame.
Import Pygame.

(** [os.path.join] with two arguments, POSIX flavour. *)
Definition ends_with_sep (a : string) : bool :=
  match last (String.list_ascii_of_string a) with
  | Some c => bool_decide (c = "/"%char)
  | None => false
  end.

Definition os_path_join (a b : string) : string :=
  if String.prefix "/" b then b
  else if bool_decide (a = "") || ends_with_sep a then a +:+ b
  else a +:+ "/" +:+ b.

(** State transformers that also emit effects, and their sequencing. *)
Definition action (S : Type) : Type := S -> S * list Effect.

Definition and_then {S : Type} (f g : action S) : action S :=
  fun s => let '(s1, t1) := f s in
           let '(s2, t2) := g s1 in
           (s2, t1 ++ t2).
Infix ">>>" := and_then (at level 61, left associativity).

(** ** soundmanager.py *)

Module SoundManager.

Record t : Type := mk {
  sound_dir : string;
  sounds : gmap string Sound;
  sound_on : bool;
  _missing_sounds : gset string
}.

Definition with_sounds (m : gmap string Sound) (self : t) : t :=
  mk (sound_dir self) m (sound_on self) (_missing_sounds self).
Definition with_sound_on (b : bool) (self : t) : t :=
  mk (sound_dir self) (sounds self) b (_missing_sounds self).
Definition with_missing (s : gset string) (self : t) : t :=
  mk (sound_dir self) (sounds self) (sound_on self) s.

Definition __init__ (dir : string) : t := mk dir ∅ true ∅.

(** The three [LOGGER.warning] records, format string and arguments. *)
Definition not_registered (name : string) : Effect :=
  LogWarning "Sound '%s' is not registered" [name].

Definition load_failed (name path exc : string) : Effect :=
  LogWarning "Failed to load sound '%s' from '%s': %s" [name; path; exc].

Definition music_failed (file_name path exc : string) : Effect :=
  LogWarning "Error loading music '%s' from '%s': %s" [file_name; path; exc].

Definition _warn_missing_sound (name : string) : action t := fun self =>
  if decide (name ∈ _missing_sounds self) then (self, [])
  else (with_missing ({[name]} ∪ _missing_sounds self) self,
        [not_registered name]).

Definition load_sound (be : Backend) (name filename : string) : action t :=
  fun self =>
  let path := os_path_join (sound_dir self) filename in
  match mixer_Sound be path with
  | error exc =>
      (with_missing ({[name]} ∪ _missing_sounds self) self,
       [MixerSound path; load_failed name path exc])
  | Ok sound =>
      let self' := with_sounds (<[name := sound]> (sounds self)) self in
      (if decide (name ∈ _missing_sounds self')
       then with_missing (_missing_sounds self' ∖ {[name]}) self'
       else self',
       [MixerSound path])
  end.

Definition play (be : Backend) (name : string) : action t := fun self =>
  if negb (sound_on self) then (self, [])
  else match sounds self !! name with
       | None => _warn_missing_sound name self
       | Some sound =>
           match mixer_find_channel be with
           | Some channel => (self, [ChannelPlay channel sound])
           | None => (self, [SoundPlay sound])
           end
       end.

Definition set_volume (name : string) (volume : Q) : action t := fun self =>
  match sounds self !! name with
  | Some sound => (self, [SoundSetVolume sound volume])
  | None => _warn_missing_sound name self
  end.

Definition toggle_sound : action t := fun self =>
  (with_sound_on (negb (sound_on self)) self, []).

Definition play_music (be : Backend) (file_name : string) (loops : Z)
  : action t := fun self =>
  if negb (sound_on self) then (self, [])
  else
    let path := os_path_join (sound_dir self) file_name in
    if negb (os_path_exists be path) then _warn_missing_sound file_name self
    else match mixer_music_load be path with
         | error exc =>
             (self, [MusicLoad path; music_failed file_name path exc])
         | Ok _ =>
             match mixer_music_play be loops with
             | error exc =>
                 (self, [MusicLoad path; MusicPlay loops;
                         music_failed file_name path exc])
             | Ok _ => (self, [MusicLoad path; MusicPlay loops])
             end
         end.

(** The default of the keyword argument [loops]. *)
Definition loops_default : Z := -1.

Definition stop_music : action t := fun self => (self, [MusicStop]).
Definition pause_music : action t := fun self => (self, [MusicPause]).
Definition unpause_music : action t := fun self => (self, [MusicUnpause]).

(** A method call, and a history of calls, each with the backend it met. *)
Inductive Call : Type :=
| load_sound_ (name filename : string)
| play_ (name : string)
| set_volume_ (name : string) (volume : Q)
| toggle_sound_
| play_music_ (file_name : string) (loops : Z)
| stop_music_
| pause_music_
| unpause_music_.

Definition call (be : Backend) (c : Call) : action t :=
  match c with
  | load_sound_ name filename => load_sound be name filename
  | play_ name => play be name
  | set_volume_ name volume => set_volume name volume
  | toggle_sound_ => toggle_sound
  | play_music_ file_name loops => play_music be file_name loops
  | stop_music_ => stop_music
  | pause_music_ => pause_music
  | unpause_music_ => unpause_music
  end.

Fixpoint run (history : list (Backend * Call)) : action t :=
  match history with
  | [] => fun self => (self, [])
  | (be, c) :: rest => call be c >>> run rest
  end.

End SoundManager.

(** ** main.py: the loading sequence *)

Module Main.
Import SoundManager.

Abbreviation SoundSetting := (string * Q)%type.
Abbreviation Setting := (string * SoundSetting)%type.

Definition loading_text (current total : nat) : string :=
  "Loading " +:+ pretty current +:+ "/" +:+ pretty total.

Definition _draw_loading_screen (screen : Surface)
    (splash_image : option Surface) (font : Font) (current total : nat)
  : list Effect :=
  let progress_text := loading_text current total in
  [ match splash_image with
    | Some image => SurfaceBlit image (0, 0)
    | None => SurfaceFill (0, 0, 0)
    end;
    FontRender font progress_text (255, 255, 255);
    TextBlit progress_text (get_width screen / 2, get_height screen - 30);
    DisplayFlip ].

(** What the loop meets at one iteration: the events [pygame.event.get()]
    returns there, and the backend the two store calls talk to. *)
Record Moment : Type := { event_get : list Event; backend : Backend }.

(** [_load_sounds] returns to [main], or [sys.exit()] ends the process. *)
Inductive Outcome : Type :=
| Returned (sound_manager : t) (trace : list Effect)
| SystemExit (sound_manager : t) (trace : list Effect).

Definition emit (pre : list Effect) (o : Outcome) : Outcome :=
  match o with
  | Returned sm trace => Returned sm (pre ++ trace)
  | SystemExit sm trace => SystemExit sm (pre ++ trace)
  end.

Fixpoint enumerate {A : Type} (l : list A) (start : nat) : list (nat * A) :=
  match l with
  | [] => []
  | x :: rest => (start, x) :: enumerate rest (S start)
  end.

(** The inner [for event in pygame.event.get()]: does it reach a QUIT? *)
Fixpoint quit_seen (events : list Event) : bool :=
  match events with
  | [] => false
  | QUIT :: _ => true
  | OtherEvent _ :: rest => quit_seen rest
  end.

(** The body of the outer loop after the event drain. *)
Definition load_entry (be : Backend) (screen : Surface)
    (splash_image : option Surface) (font : Font) (index total : nat)
    (entry : Setting) : action t :=
  let '(name, (filename, volume)) := entry in
  load_sound be name filename >>> set_volume name volume >>>
  (fun sm => (sm, _draw_loading_screen screen splash_image font index total
                  ++ [ClockTick 60])).

Fixpoint for_each (world : nat -> Moment) (screen : Surface)
    (splash_image : option Surface) (font : Font) (total : nat)
    (items : list (nat * Setting)) (sm : t) : Outcome :=
  match items with
  | [] => Returned sm []
  | (index, entry) :: rest =>
      if quit_seen (event_get (world index))
      then SystemExit sm [EventGet; PygameQuit; SysExit]
      else
        let '(sm', trace) :=
          load_entry (backend (world index)) screen splash_image font
                     index total entry sm in
        emit (EventGet :: trace)
             (for_each world screen splash_image font total rest sm')
  end.

Definition _load_sounds (world : nat -> Moment) (sound_manager : t)
    (settings : list Setting) (splash_screen : Surface)
    (splash_image : option Surface) : Outcome :=
  let font := FontObj 24 in
  let settings_list := settings in
  let total := length settings_list in
  emit [FontNew 24; ClockNew]
       (for_each world splash_screen splash_image font total
                 (enumerate settings_list 1) sound_manager).

(** The manifest of [main]. *)
Definition sound_settings : list Setting :=
  [ ("jump", ("jump.mp3", 5 # 100));
    ("hit", ("hit.mp3", 0 # 1));
    ("pickup", ("pickup.mp3", 2 # 100));
    ("stage_clear", ("stage_clear.mp3", 1 # 100));
    ("enemy_spawn", ("enemy_spawn.mp3", 1 # 10));
    ("miss", ("miss.mp3", 2 # 100));
    ("pi", ("pi.mp3", 1 # 10));
    ("speed_up", ("speed.mp3", 1 # 10));
    ("loop_reset", ("loop_reset.mp3", 1 # 10));
    ("key_spawn", ("key_spawn.mp3", 5 # 100));
    ("select", ("select.mp3", 1 # 10));
    ("stage_in", ("stage_in.mp3", 1 # 10));
    ("unmove", ("unmove.mp3", 1 # 10));
    ("ex_open", ("ex_open.mp3", 1 # 10));
    ("title_in", ("title_in.mp3", 1 # 10));
    ("spawn_one", ("spawn_one.mp3", 2 # 100)) ]%Q.

(** The display [main] opens for the splash: [set_mode((200, 200))]. *)
Definition splash_screen : Surface :=
  {| get_width := 200; get_height := 200 |}.

End Main.

Import SoundManager Main.

#[local] Arguments load_entry : simpl never.

(** ** What a trace shows *)

(** Sounds whose playback was dispatched, on a channel or directly. *)
Definition playbacks (trace : list Effect) : list Sound :=
  omap (fun e => match e with
                 | ChannelPlay _ sound | SoundPlay sound => Some sound
                 | _ => None
                 end) trace.

(** Commands sent to the music channel. *)
Definition music_commands (trace : list Effect) : list Effect :=
  omap (fun e => match e with
                 | MusicLoad _ | MusicPlay _ => Some e
                 | _ => None
                 end) trace.

(** All log records. *)
Definition warnings (trace : list Effect) : list Effect :=
  omap (fun e => match e with LogWarning _ _ => Some e | _ => None end) trace.

(** Names for which the "is not registered" warning was logged. *)
Definition missing_warnings (trace : list Effect) : list string :=
  omap (fun e => match e with
                 | LogWarning fmt [name] =>
                     if decide (fmt = "Sound '%s' is not registered")
                     then Some name else None
                 | _ => None
                 end) trace.

(** Paths handed to [pygame.mixer.Sound], one per load attempt. *)
Definition loads (trace : list Effect) : list string :=
  omap (fun e => match e with MixerSound path => Some path | _ => None end)
       trace.

(** Texts rendered onto the loading screen, one per frame. *)
Definition frames (trace : list Effect) : list string :=
  omap (fun e => match e with FontRender _ text _ => Some text | _ => None end)
       trace.

(** Frames presented. *)
Definition flips (trace : list Effect) : nat :=
  length (omap (fun e => match e with DisplayFlip => Some e | _ => None end)
               trace).

(** Calls to [pygame.event.get()]. *)
Definition drains (trace : list Effect) : nat :=
  length (omap (fun e => match e with EventGet => Some e | _ => None end)
               trace).

(** ** Descriptions used in the statements *)

(** The invariant of the data model: no name is both registered and
    missing. *)
Definition registry_missing_disjoint (self : SoundManager.t) : Prop :=
  dom (sounds self) ## _missing_sounds self.

(** One dispatch of [sound], on the free channel if the backend has one. *)
Definition dispatch (be : Backend) (sound : Sound) : Effect :=
  match mixer_find_channel be with
  | Some channel => ChannelPlay channel sound
  | None => SoundPlay sound
  end.

Definition plays (name : string) (bes : list Backend)
  : list (Backend * Call) := map (fun be => (be, play_ name)) bes.

(** What a run of [play name] calls logs: nothing when [name] is already in
    the missing set or no call is made, the one warning otherwise. *)
Definition first_warning (name : string) (bes : list Backend)
    (self : SoundManager.t) : list Effect :=
  if decide (name ∈ _missing_sounds self) then []
  else match bes with
       | [] => []
       | _ :: _ => [not_registered name]
       end.

(** The two places that add a name to the missing set without looking at
    the registry are the failure branch of [load_sound] and, through the
    file name, [play_music] of a file that does not exist.  A call keeps the
    two collections apart when it is not one of those on a registered name. *)
Definition keeps_apart (be : Backend) (c : Call) (self : SoundManager.t)
  : bool :=
  match c with
  | load_sound_ name filename =>
      match mixer_Sound be (os_path_join (sound_dir self) filename) with
      | error _ => bool_decide (sounds self !! name = None)
      | Ok _ => true
      end
  | play_music_ file_name _ =>
      negb (sound_on self)
      || os_path_exists be (os_path_join (sound_dir self) file_name)
      || bool_decide (sounds self !! file_name = None)
  | _ => true
  end.

Fixpoint all_keep_apart (history : list (Backend * Call))
    (self : SoundManager.t) : bool :=
  match history with
  | [] => true
  | (be, c) :: rest =>
      keeps_apart be c self && all_keep_apart rest (call be c self).1
  end.

(** One manifest entry attempted: [load_sound], then [set_volume]. *)
Definition attempt (world : nat -> Moment) (sm : SoundManager.t)
    (item : nat * Setting) : SoundManager.t :=
  let '(index, (name, (filename, volume))) := item in
  (set_volume name volume
     (load_sound (backend (world index)) name filename sm).1).1.

(** The loop when no QUIT turns up: drain, then the entry, for each item. *)
Fixpoint load_entries (world : nat -> Moment) (screen : Surface)
    (splash_image : option Surface) (font : Font) (total : nat)
    (items : list (nat * Setting)) : action SoundManager.t :=
  match items with
  | [] => fun sm => (sm, [])
  | (index, entry) :: rest =>
      (fun sm => (sm, [EventGet])) >>>
      load_entry (backend (world index)) screen splash_image font
                 index total entry >>>
      load_entries world screen splash_image font total rest
  end.

(** ** Concrete backends, stores, histories and event queues *)

(** Every file is there and decodes; a channel is free. *)
Definition backend_ok : Backend := {|
  mixer_Sound := fun path => Ok (SoundObj (String.length path));
  mixer_find_channel := Some (ChannelObj 0);
  os_path_exists := fun _ => true;
  mixer_music_load := fun _ => Ok tt;
  mixer_music_play := fun _ => Ok tt
|}.

(** No file is there; no channel is free. *)
Definition backend_absent : Backend := {|
  mixer_Sound := fun _ => error "Unable to open file";
  mixer_find_channel := None;
  os_path_exists := fun _ => false;
  mixer_music_load := fun _ => error "Couldn't open file";
  mixer_music_play := fun _ => error "music not loaded"
|}.

(** The file is there but the music channel refuses to start it. *)
Definition backend_music_broken : Backend := {|
  mixer_Sound := fun path => Ok (SoundObj (String.length path));
  mixer_find_channel := Some (ChannelObj 0);
  os_path_exists := fun _ => true;
  mixer_music_load := fun _ => Ok tt;
  mixer_music_play := fun _ => error "mixer not initialized"
|}.

Definition fresh : SoundManager.t := __init__ "assets/sound".

(** The store after "jump" was loaded. *)
Definition with_jump : SoundManager.t :=
  fst (load_sound backend_ok "jump" "jump.mp3" fresh).

(** The store after "jump" was loaded and sound switched off. *)
Definition muted_with_jump : SoundManager.t := fst (toggle_sound with_jump).

(** The store after the load of "ghost" failed. *)
Definition with_ghost_missing : SoundManager.t :=
  fst (load_sound backend_absent "ghost" "missing.mp3" fresh).

(** A history that fails to re-load a registered name. *)
Definition reload_fails : list (Backend * Call) :=
  [ (backend_ok, load_sound_ "jump" "jump.mp3");
    (backend_absent, load_sound_ "jump" "jump.mp3") ].

(** A history of the kind the game produces: loads that succeed or fail,
    volume and play requests, mute, music, and a late successful load. *)
Definition late_load : list (Backend * Call) :=
  [ (backend_ok, load_sound_ "jump" "jump.mp3");
    (backend_absent, load_sound_ "ghost" "missing.mp3");
    (backend_absent, set_volume_ "ghost" (1 # 10)%Q);
    (backend_ok, play_ "ghost");
    (backend_ok, play_ "nothing");
    (backend_ok, toggle_sound_);
    (backend_ok, toggle_sound_);
    (backend_absent, play_music_ "bgm.mp3" (-1));
    (backend_ok, load_sound_ "ghost" "missing.mp3");
    (backend_ok, play_ "ghost") ].

(** A QUIT arrives, after another event, at the fourth iteration only; the
    second file of the manifest is absent. *)
Definition quit_at_fourth (index : nat) : Moment :=
  {| event_get :=
       if decide (index = 4%nat) then [OtherEvent 768; QUIT] else [];
     backend :=
       if decide (index = 2%nat) then backend_absent else backend_ok |}.

(** No QUIT ever; the second file of the manifest is absent. *)
Definition never_quit (index : nat) : Moment :=
  {| event_get := if decide (index = 3%nat) then [OtherEvent 768] else [];
     backend :=
       if decide (index = 2%nat) then backend_absent else backend_ok |}.

(** ** Histories of calls *)

(** The name a call is about: the sound name, or the music file name. *)
Definition subject (c : Call) : option string :=
  match c with
  | load_sound_ name _ | play_ name | set_volume_ name _ => Some name
  | play_music_ file_name _ => Some file_name
  | toggle_sound_ | stop_music_ | pause_music_ | unpause_music_ => None
  end.

Definition is_load (c : Call) : bool :=
  match c with load_sound_ _ _ => true | _ => false end.

Definition is_toggle (c : Call) : bool :=
  match c with toggle_sound_ => true | _ => false end.

(** How many times a history flips the mute flag. *)
Definition toggles (history : list (Backend * Call)) : nat :=
  length (List.filter (fun bc : Backend * Call => is_toggle bc.2) history).

(** Is this call a [load_sound] of [name] that the backend lets succeed? *)
Definition reloads (name : string) (be : Backend) (c : Call)
    (self : SoundManager.t) : bool :=
  match c with
  | load_sound_ n filename =>
      bool_decide (n = name) &&
      match mixer_Sound be (os_path_join (sound_dir self) filename) with
      | Ok _ => true
      | error _ => false
      end
  | _ => false
  end.

Fixpoint never_reloaded (name : string) (history : list (Backend * Call))
    (self : SoundManager.t) : bool :=
  match history with
  | [] => true
  | (be, c) :: rest =>
      negb (reloads name be c self) &&
      never_reloaded name rest (call be c self).1
  end.

(** How many "is not registered" warnings a trace holds for [name]. *)
Definition times_warned (name : string) (trace : list Effect) : nat :=
  length (filter (fun n => n = name) (missing_warnings trace)).

(** A history in which "ghost" is asked for again and again, by every
    route, and never loaded. *)
Definition ghost_requests : list (Backend * Call) :=
  [ (backend_ok, toggle_sound_);
    (backend_ok, play_ "ghost");
    (backend_absent, set_volume_ "ghost" (1 # 10)%Q);
    (backend_ok, toggle_sound_);
    (backend_ok, play_ "ghost");
    (backend_absent, play_music_ "ghost" (-1));
    (backend_ok, load_sound_ "jump" "jump.mp3");
    (backend_absent, load_sound_ "ghost" "missing.mp3");
    (backend_ok, play_ "ghost") ].

(** ** The loading sequence, observed *)

(** The trace of an outcome, and its store. *)
Definition trace_of (o : Outcome) : list Effect :=
  match o with Returned _ trace | SystemExit _ trace => trace end.

Definition store_of (o : Outcome) : SoundManager.t :=
  match o with Returned sm _ | SystemExit sm _ => sm end.

(** Volumes set on handles. *)
Definition volumes (trace : list Effect) : list (Sound * Q) :=
  omap (fun e => match e with
                 | SoundSetVolume sound volume => Some (sound, volume)
                 | _ => None
                 end) trace.

(** What the mixer answers for a manifest item at its iteration, for a store
    whose asset directory is [dir]. *)
Definition answer (world : nat -> Moment) (dir : string)
    (item : nat * Setting) : Raises Sound :=
  mixer_Sound (backend (world item.1)) (os_path_join dir item.2.2.1).

(** The log record of an item whose load fails. *)
Definition load_failure (world : nat -> Moment) (dir : string)
    (item : nat * Setting) : option Effect :=
  match answer world dir item with
  | error exc =>
      Some (load_failed item.2.1 (os_path_join dir item.2.2.1) exc)
  | Ok _ => None
  end.

(** The handle and volume of an item whose load succeeds. *)
Definition loaded_volume (world : nat -> Moment) (dir : string)
    (item : nat * Setting) : option (Sound * Q) :=
  match answer world dir item with
  | Ok sound => Some (sound, item.2.2.2)
  | error _ => None
  end.

(** What the store should hold for an item once the manifest is loaded. *)
Definition settled (world : nat -> Moment) (sm final : SoundManager.t)
    (item : nat * Setting) : Prop :=
  match answer world (sound_dir sm) item with
  | Ok sound =>
      sounds final !! item.2.1 = Some sound /\
      item.2.1 ∉ _missing_sounds final
  | error _ =>
      sounds final !! item.2.1 = sounds sm !! item.2.1 /\
      item.2.1 ∈ _missing_sounds final
  end.

(** The logical names of a manifest. *)
Definition names (settings : list Setting) : list string :=
  map (fun entry : Setting => entry.1) settings.

(** ** main.py: the splash image and the start of [main] *)

Module Startup.

(** The names [main.py] imports from [game_utils], which is not among the
    sources at hand: they are taken as given. *)
Record GameUtils : Type := {
  resource_path : string -> string;
  SCREEN_WIDTH : Z;
  SCREEN_HEIGHT : Z;
  FPS : Z
}.

(** What the display side of pygame and [pathlib] answer.  The three image
    calls sit in a [try] and may raise [pygame.error]. *)
Record Platform : Type := {
  image_load : string -> Raises Surface;
  Surface_convert : Surface -> Raises Surface;
  transform_scale : Surface -> Z * Z -> Raises Surface;
  display_set_mode : Z * Z -> Surface;
  Path_str : string -> string
}.

(** Commands of the start-up, next to those of the loading sequence. *)
Inductive Command : Type :=
| Core (e : Effect)
| LoggingBasicConfig (level : string)
| MixerPreInit (frequency size channels buffer : Z)
| PygameInit
| MixerInit
| FontInit
| DisplaySetMode (size : Z * Z)
| DisplaySetCaption (title : string)
| ImageLoad (path : string)
| SurfaceConvert (image : Surface)
| TransformScale (image : Surface) (size : Z * Z)
| EnvironSet (key value : string).

Definition splash_failed (splash_path exc : string) : Command :=
  Core (LogWarning "Failed to load splash image '%s': %s" [splash_path; exc]).

Definition _load_splash_image (utils : GameUtils) (platform : Platform)
    (splash_size : Z * Z) : option Surface * list Command :=
  let splash_path := resource_path utils "assets/pics/splash.png" in
  match image_load platform splash_path with
  | error exc =>
      (None, [ImageLoad splash_path; splash_failed splash_path exc])
  | Ok loaded =>
      match Surface_convert platform loaded with
      | error exc =>
          (None, [ImageLoad splash_path; SurfaceConvert loaded;
                  splash_failed splash_path exc])
      | Ok image =>
          match transform_scale platform image splash_size with
          | error exc =>
              (None, [ImageLoad splash_path; SurfaceConvert loaded;
                      TransformScale image splash_size;
                      splash_failed splash_path exc])
          | Ok scaled =>
              (Some scaled, [ImageLoad splash_path; SurfaceConvert loaded;
                             TransformScale image splash_size])
          end
      end
  end.

(** Windows opened, in order. *)
Definition windows (trace : list Command) : list (Z * Z) :=
  omap (fun c => match c with DisplaySetMode size => Some size | _ => None end)
       trace.

(** Backgrounds painted, in order: the image blitted, or [None] for the
    black fill. *)
Definition backgrounds (trace : list Command) : list (option Surface) :=
  omap (fun c => match c with
                 | Core (SurfaceBlit image _) => Some (Some image)
                 | Core (SurfaceFill _) => Some None
                 | _ => None
                 end) trace.

(** Log records of the start-up. *)
Definition logged (trace : list Command) : list Command :=
  omap (fun c => match c with
                 | Core (LogWarning _ _) => Some c
                 | _ => None
                 end) trace.

End Startup.

Import Startup.

(** The constants of the game, as far as they matter here, and a platform
    on which the splash image loads, or does not. *)
Definition game_utils : GameUtils := {|
  resource_path := fun relative => "/opt/game/" +:+ relative;
  SCREEN_WIDTH := 800;
  SCREEN_HEIGHT := 600;
  FPS := 60
|}.

Definition platform_ok : Platform := {|
  image_load := fun _ => Ok {| get_width := 640; get_height := 480 |};
  Surface_convert := fun image => Ok image;
  transform_scale := fun _ size =>
    Ok {| get_width := size.1; get_height := size.2 |};
  display_set_mode := fun size =>
    {| get_width := size.1; get_height := size.2 |};
  Path_str := fun path => path
|}.

Definition platform_no_splash : Platform := {|
  image_load := fun _ => error "Couldn't open splash.png";
  Surface_convert := fun image => Ok image;
  transform_scale := fun _ size =>
    Ok {| get_width := size.1; get_height := size.2 |};
  display_set_mode := fun size =>
    {| get_width := size.1; get_height := size.2 |};
  Path_str := fun path => path
|}.

(** ** The same code when a backend call may raise any exception *)

(** The handlers of the source catch [pygame.error] and nothing else.  The
    definitions above take each call inside a [try] to return or to raise
    [pygame.error].  Here such a call may also raise an exception of another
    class, [FileNotFoundError] for a file that is not there being the one
    pygame 2 raises; it passes the handler and leaves the function that made
    the call, and every caller up to the top. *)

Module Raising.

Inductive Answer (A : Type) : Type :=
| Returns (a : A)
| pygame_error (exc : string)
| other_exception (class_name exc : string).
Arguments Returns {A} a.
Arguments pygame_error {A} exc.
Arguments other_exception {A} class_name exc.

Record Backend : Type := {
  mixer_Sound : string -> Answer Sound;
  mixer_find_channel : option Channel;
  os_path_exists : string -> bool;
  mixer_music_load : string -> Answer unit;
  mixer_music_play : Z -> Answer unit
}.

(** A method returns, or an exception escapes from it, with the store and
    the trace as they are at that point. *)
Inductive Result : Type :=
| Normal (self : SoundManager.t) (trace : list Effect)
| Escaped (class_name exc : string) (self : SoundManager.t)
          (trace : list Effect).

Definition load_sound (be : Backend) (name filename : string)
    (self : SoundManager.t) : Result :=
  let path := os_path_join (sound_dir self) filename in
  match mixer_Sound be path with
  | other_exception class_name exc =>
      Escaped class_name exc self [MixerSound path]
  | pygame_error exc =>
      Normal (with_missing ({[name]} ∪ _missing_sounds self) self)
             [MixerSound path; load_failed name path exc]
  | Returns sound =>
      let self' := with_sounds (<[name := sound]> (sounds self)) self in
      Normal (if decide (name ∈ _missing_sounds self')
              then with_missing (_missing_sounds self' ∖ {[name]}) self'
              else self')
             [MixerSound path]
  end.

Definition play_music (be : Backend) (file_name : string) (loops : Z)
    (self : SoundManager.t) : Result :=
  if negb (sound_on self) then Normal self []
  else
    let path := os_path_join (sound_dir self) file_name in
    if negb (os_path_exists be path)
    then Normal (_warn_missing_sound file_name self).1
                (_warn_missing_sound file_name self).2
    else match mixer_music_load be path with
         | other_exception class_name exc =>
             Escaped class_name exc self [MusicLoad path]
         | pygame_error exc =>
             Normal self [MusicLoad path; music_failed file_name path exc]
         | Returns _ =>
             match mixer_music_play be loops with
             | other_exception class_name exc =>
                 Escaped class_name exc self [MusicLoad path; MusicPlay loops]
             | pygame_error exc =>
                 Normal self [MusicLoad path; MusicPlay loops;
                              music_failed file_name path exc]
             | Returns _ => Normal self [MusicLoad path; MusicPlay loops]
             end
         end.

(** *** The loading sequence *)

Record Moment : Type := { event_get : list Event; backend : Backend }.

(** [_load_sounds] returns, [sys.exit()] ends the process, or an exception
    that [load_sound] let through leaves the loop. *)
Inductive Outcome : Type :=
| Returned (sound_manager : SoundManager.t) (trace : list Effect)
| SystemExit (sound_manager : SoundManager.t) (trace : list Effect)
| Raised (class_name exc : string) (sound_manager : SoundManager.t)
         (trace : list Effect).

Definition emit (pre : list Effect) (o : Outcome) : Outcome :=
  match o with
  | Returned sm trace => Returned sm (pre ++ trace)
  | SystemExit sm trace => SystemExit sm (pre ++ trace)
  | Raised class_name exc sm trace => Raised class_name exc sm (pre ++ trace)
  end.

(** The body of the outer loop after the event drain. *)
Definition load_entry (be : Backend) (screen : Surface)
    (splash_image : option Surface) (font : Font) (index total : nat)
    (entry : Setting) (sm : SoundManager.t) : Result :=
  let '(name, (filename, volume)) := entry in
  match load_sound be name filename sm with
  | Escaped class_name exc sm' trace => Escaped class_name exc sm' trace
  | Normal sm1 t1 =>
      let '(sm2, t2) := set_volume name volume sm1 in
      Normal sm2 (t1 ++ t2 ++
                  _draw_loading_screen screen splash_image font index total
                  ++ [ClockTick 60])
  end.

Fixpoint for_each (world : nat -> Moment) (screen : Surface)
    (splash_image : option Surface) (font : Font) (total : nat)
    (items : list (nat * Setting)) (sm : SoundManager.t) : Outcome :=
  match items with
  | [] => Returned sm []
  | (index, entry) :: rest =>
      if quit_seen (event_get (world index))
      then SystemExit sm [EventGet; PygameQuit; SysExit]
      else
        match load_entry (backend (world index)) screen splash_image font
                         index total entry sm with
        | Escaped class_name exc sm' trace =>
            Raised class_name exc sm' (EventGet :: trace)
        | Normal sm' trace =>
            emit (EventGet :: trace)
                 (for_each world screen splash_image font total rest sm')
        end
  end.

Definition _load_sounds (world : nat -> Moment) (sound_manager : SoundManager.t)
    (settings : list Setting) (splash_screen : Surface)
    (splash_image : option Surface) : Outcome :=
  let font := FontObj 24 in
  let settings_list := settings in
  let total := length settings_list in
  emit [FontNew 24; ClockNew]
       (for_each world splash_screen splash_image font total
                 (enumerate settings_list 1) sound_manager).

Definition trace_of (o : Outcome) : list Effect :=
  match o with
  | Returned _ trace | SystemExit _ trace | Raised _ _ _ trace => trace
  end.

(** *** The splash image and the start of [main] *)

Record Platform : Type := {
  image_load : string -> Answer Surface;
  Surface_convert : Surface -> Answer Surface;
  transform_scale : Surface -> Z * Z -> Answer Surface;
  display_set_mode : Z * Z -> Surface;
  Path_str : string -> string
}.

(** [_load_splash_image] returns an image or [None], or lets an exception
    through. *)
Inductive Splash : Type :=
| Got (image : option Surface) (trace : list Command)
| Lost (class_name exc : string) (trace : list Command).

Definition _load_splash_image (utils : GameUtils) (platform : Platform)
    (splash_size : Z * Z) : Splash :=
  let splash_path := resource_path utils "assets/pics/splash.png" in
  match image_load platform splash_path with
  | other_exception class_name exc =>
      Lost class_name exc [ImageLoad splash_path]
  | pygame_error exc =>
      Got None [ImageLoad splash_path; splash_failed splash_path exc]
  | Returns loaded =>
      match Surface_convert platform loaded with
      | other_exception class_name exc =>
          Lost class_name exc [ImageLoad splash_path; SurfaceConvert loaded]
      | pygame_error exc =>
          Got None [ImageLoad splash_path; SurfaceConvert loaded;
                    splash_failed splash_path exc]
      | Returns image =>
          match transform_scale platform image splash_size with
          | other_exception class_name exc =>
              Lost class_name exc
                   [ImageLoad splash_path; SurfaceConvert loaded;
                    TransformScale image splash_size]
          | pygame_error exc =>
              Got None [ImageLoad splash_path; SurfaceConvert loaded;
                        TransformScale image splash_size;
                        splash_failed splash_path exc]
          | Returns scaled =>
              Got (Some scaled)
                  [ImageLoad splash_path; SurfaceConvert loaded;
                   TransformScale image splash_size]
          end
      end
  end.

(** [main] ends in [sys.exit()] while loading, or in an exception that
    nothing caught, or reaches the point where it builds the first scene.
    The scene classes are not among the sources at hand, so the embedding of
    [main] stops there. *)
Inductive Start : Type :=
| Exited (trace : list Command)
| Crashed (class_name exc : string) (trace : list Command)
| SceneStart (sound_manager : SoundManager.t) (game_screen : Surface)
             (trace : list Command).

(** What [main] does before it asks for the splash image. *)
Definition opening (splash_size : Z * Z) : list Command :=
  [ LoggingBasicConfig "INFO"; MixerPreInit 44100 (-16) 2 256;
    PygameInit; MixerInit; FontInit;
    DisplaySetMode splash_size; DisplaySetCaption "Loading..." ].

Definition main (utils : GameUtils) (platform : Platform)
    (world : nat -> Moment) : Start :=
  let splash_size := (200, 200) in
  let splash_screen := display_set_mode platform splash_size in
  match _load_splash_image utils platform splash_size with
  | Lost class_name exc image_trace =>
      Crashed class_name exc (opening splash_size ++ image_trace)
  | Got splash_image image_trace =>
      let first_frame :=
        match splash_image with
        | None => [SurfaceFill (0, 0, 0); DisplayFlip]
        | Some image => [SurfaceBlit image (0, 0); DisplayFlip]
        end in
      let sound_dir :=
        Path_str platform (resource_path utils "assets/sound") in
      let sound_manager := __init__ sound_dir in
      let shown := opening splash_size ++ image_trace ++ map Core first_frame in
      match _load_sounds world sound_manager sound_settings splash_screen
                         splash_image with
      | SystemExit _ trace => Exited (shown ++ map Core trace)
      | Raised class_name exc _ trace =>
          Crashed class_name exc (shown ++ map Core trace)
      | Returned sound_manager trace =>
          let size := (SCREEN_WIDTH utils, SCREEN_HEIGHT utils) in
          SceneStart sound_manager (display_set_mode platform size)
            (shown ++ map Core trace ++
             [ EnvironSet "SDL_VIDEO_CENTERED" "1"; DisplaySetMode size;
               DisplaySetCaption "dIGIT WorLd"; Core ClockNew ])
      end
  end.

Definition start_trace (s : Start) : list Command :=
  match s with
  | Exited trace | Crashed _ _ trace | SceneStart _ _ trace => trace
  end.

(** *** From the answers above to these *)

Definition lift_answer {A : Type} (r : Raises A) : Answer A :=
  match r with
  | Ok a => Returns a
  | error exc => pygame_error exc
  end.

(** A backend that raises nothing but [pygame.error]. *)
Definition lift (be : Pygame.Backend) : Backend := {|
  mixer_Sound := fun path => lift_answer (Pygame.mixer_Sound be path);
  mixer_find_channel := Pygame.mixer_find_channel be;
  os_path_exists := Pygame.os_path_exists be;
  mixer_music_load := fun path => lift_answer (Pygame.mixer_music_load be path);
  mixer_music_play := fun loops => lift_answer (Pygame.mixer_music_play be loops)
|}.

Definition lift_world (world : nat -> Main.Moment) (index : nat) : Moment :=
  {| event_get := Main.event_get (world index);
     backend := lift (Main.backend (world index)) |}.

Definition lift_outcome (o : Main.Outcome) : Outcome :=
  match o with
  | Main.Returned sm trace => Returned sm trace
  | Main.SystemExit sm trace => SystemExit sm trace
  end.

(** Does the call return or raise [pygame.error], the two outcomes the
    handler leaves to the function? *)
Definition handled {A : Type} (answer : Answer A) : bool :=
  match answer with
  | Returns _ | pygame_error _ => true
  | other_exception _ _ => false
  end.

(** *** The loading sequence, written out *)

(** The mixer's answer for a manifest item at its iteration, for a store
    whose asset directory is [dir]. *)
Definition answer (world : nat -> Moment) (dir : string)
    (item : nat * Setting) : Answer Sound :=
  mixer_Sound (backend (world item.1)) (os_path_join dir item.2.2.1).

(** The store after an iteration that ran to its end. *)
Definition entry_store (world : nat -> Moment) (sm : SoundManager.t)
    (item : nat * Setting) : SoundManager.t :=
  match answer world (sound_dir sm) item with
  | Returns sound =>
      mk (sound_dir sm) (<[item.2.1 := sound]> (sounds sm)) (sound_on sm)
         (_missing_sounds sm ∖ {[item.2.1]})
  | pygame_error _ =>
      mk (sound_dir sm) (sounds sm) (sound_on sm)
         ({[item.2.1]} ∪ _missing_sounds sm)
  | other_exception _ _ => sm
  end.

(** Every command of an iteration that ran to its end, in order: the drain,
    the load, then the volume on the new handle, or the failure record and
    the volume on the handle an earlier load had registered if there is one,
    then the background, the text rendered and blitted, the flip and the
    tick. *)
Definition entry_script (world : nat -> Moment) (screen : Surface)
    (splash_image : option Surface) (total : nat) (sm : SoundManager.t)
    (item : nat * Setting) : list Effect :=
  let path := os_path_join (sound_dir sm) item.2.2.1 in
  [EventGet; MixerSound path] ++
  match answer world (sound_dir sm) item with
  | Returns sound => [SoundSetVolume sound item.2.2.2]
  | pygame_error exc =>
      load_failed item.2.1 path exc ::
      match sounds sm !! item.2.1 with
      | Some old => [SoundSetVolume old item.2.2.2]
      | None => []
      end
  | other_exception _ _ => []
  end ++
  [ match splash_image with
    | Some image => SurfaceBlit image (0, 0)
    | None => SurfaceFill (0, 0, 0)
    end;
    FontRender (FontObj 24) (loading_text item.1 total) (255, 255, 255);
    TextBlit (loading_text item.1 total)
             (get_width screen / 2, get_height screen - 30);
    DisplayFlip;
    ClockTick 60 ].

Fixpoint loading_script (world : nat -> Moment) (screen : Surface)
    (splash_image : option Surface) (total : nat)
    (items : list (nat * Setting)) (sm : SoundManager.t) : list Effect :=
  match items with
  | [] => []
  | item :: rest =>
      entry_script world screen splash_image total sm item ++
      loading_script world screen splash_image total rest
                     (entry_store world sm item)
  end.

(** An iteration that neither sees a QUIT nor lets an exception through. *)
Definition undisturbed (world : nat -> Moment) (dir : string)
    (item : nat * Setting) : Prop :=
  (QUIT ∉ event_get (world item.1)) /\ handled (answer world dir item) = true.

(** The path of a manifest entry. *)
Definition path_of (dir : string) (entry : Setting) : string :=
  os_path_join dir entry.2.1.

End Raising.

(** A backend of pygame 2 on a machine without the files: the mixer raises
    [FileNotFoundError], which is not a [pygame.error]. *)
Definition backend_pygame2_absent : Raising.Backend := {|
  Raising.mixer_Sound := fun path =>
    Raising.other_exception "FileNotFoundError"
      ("No file '" +:+ path +:+ "' found in working directory");
  Raising.mixer_find_channel := None;
  Raising.os_path_exists := fun _ => false;
  Raising.mixer_music_load := fun _ => Raising.pygame_error "Couldn't open file";
  Raising.mixer_music_play := fun _ => Raising.pygame_error "music not loaded"
|}.

(** No QUIT ever; the second file of the manifest is not there. *)
Definition second_file_absent (index : nat) : Raising.Moment :=
  {| Raising.event_get := [];
     Raising.backend :=
       if decide (index = 2%nat) then backend_pygame2_absent
       else Raising.lift backend_ok |}.

(** A QUIT arrives at the fourth iteration; every file decodes. *)
Definition quit_at_fourth_raising (index : nat) : Raising.Moment :=
  {| Raising.event_get :=
       if decide (index = 4%nat) then [OtherEvent 768; QUIT] else [];
     Raising.backend := Raising.lift backend_ok |}.

(** The splash image loads; the splash image is not there under pygame 2. *)
Definition platform_raising_ok : Raising.Platform := {|
  Raising.image_load := fun _ =>
    Raising.Returns {| get_width := 640; get_height := 480 |};
  Raising.Surface_convert := fun image => Raising.Returns image;
  Raising.transform_scale := fun _ size =>
    Raising.Returns {| get_width := size.1; get_height := size.2 |};
  Raising.display_set_mode := fun size =>
    {| get_width := size.1; get_height := size.2 |};
  Raising.Path_str := fun path => path
|}.

Definition platform_no_splash_file : Raising.Platform := {|
  Raising.image_load := fun path =>
    Raising.other_exception "FileNotFoundError"
      ("No file '" +:+ path +:+ "' found in working directory");
  Raising.Surface_convert := fun image => Raising.Returns image;
  Raising.transform_scale := fun _ size =>
    Raising.Returns {| get_width := size.1; get_height := size.2 |};
  Raising.display_set_mode := fun size =>
    {| get_width := size.1; get_height := size.2 |};
  Raising.Path_str := fun path => path
|}.

(** A music file that is not there is asked for, a sound is then loaded
    under the same name, and the music file is asked for again. *)
Definition theme_reloaded : list (Backend * Call) :=
  [ (backend_absent, play_music_ "theme" (-1));
    (backend_ok, load_sound_ "theme" "theme.mp3");
    (backend_absent, play_music_ "theme" (-1)) ].

(** The music file is there, but the loop count does not fit the C integer
    the mixer takes: [OverflowError], not a [pygame.error]. *)
Definition backend_loops_overflow : Raising.Backend := {|
  Raising.mixer_Sound := fun path => Raising.Returns (SoundObj (String.length path));
  Raising.mixer_find_channel := Some (ChannelObj 0);
  Raising.os_path_exists := fun _ => true;
  Raising.mixer_music_load := fun _ => Raising.Returns tt;
  Raising.mixer_music_play := fun _ =>
    Raising.other_exception "OverflowError"
      "Python int too large to convert to C int"
|}.

(** * Properties *)

(** ** Basic facts *)

Lemma and_then_eq {S : Type} (f g : action S) (s : S) :
  (f >>> g) s = ((g (f s).1).1, (f s).2 ++ (g (f s).1).2).
Proof.
  unfold and_then. destruct (f s) as [s1 t1]. simpl.
  destruct (g s1) as [s2 t2]. reflexivity.
Qed.

Lemma run_cons be c rest self :
  run ((be, c) :: rest) self =
  ((run rest (call be c self).1).1,
   (call be c self).2 ++ (run rest (call be c self).1).2).
Proof. simpl. apply and_then_eq. Qed.

Lemma warn_known name self :
  name ∈ _missing_sounds self -> _warn_missing_sound name self = (self, []).
Proof. intros H. unfold _warn_missing_sound. by rewrite decide_True. Qed.

Lemma warn_new name self :
  name ∉ _missing_sounds self ->
  _warn_missing_sound name self =
  (with_missing ({[name]} ∪ _missing_sounds self) self,
   [not_registered name]).
Proof. intros H. unfold _warn_missing_sound. by rewrite decide_False. Qed.

(** ** C7, C8: the mute flag *)

(** C7: while the store is muted ([sound_on] is false), [play] returns the
    store as it was and sends nothing at all to the backend, whatever the
    name is: registered, recorded as missing, or unknown. *)
Theorem play_muted_dispatches_nothing (be : Backend) (name : string)
    (self : SoundManager.t) :
  sound_on self = false ->
  play be name self = (self, []) /\ playbacks (play be name self).2 = [].
Proof.
  intros Hoff. unfold play. rewrite Hoff. simpl. split; reflexivity.
Qed.

Lemma play_muted_dispatches_nothing_witness :
  sound_on muted_with_jump = false /\
  (play backend_ok "jump" muted_with_jump = (muted_with_jump, []) /\
   playbacks (play backend_ok "jump" muted_with_jump).2 = []).
Proof.
  split; [reflexivity|].
  apply (play_muted_dispatches_nothing backend_ok "jump" muted_with_jump).
  reflexivity.
Defined.

(** C8: [toggle_sound] flips [sound_on] and touches nothing else (no other
    field, no backend command), and two calls in a row give back the store
    they started from. *)
Theorem toggle_sound_involution (self : SoundManager.t) :
  (toggle_sound >>> toggle_sound) self = (self, []) /\
  sound_on (toggle_sound self).1 = negb (sound_on self) /\
  sounds (toggle_sound self).1 = sounds self /\
  _missing_sounds (toggle_sound self).1 = _missing_sounds self /\
  sound_dir (toggle_sound self).1 = sound_dir self /\
  (toggle_sound self).2 = [].
Proof.
  destruct self as [d m b s]. unfold and_then, toggle_sound, with_sound_on.
  simpl. rewrite negb_involutive. repeat split; reflexivity.
Qed.

(** ** C9: loading a sound *)

Lemma load_sound_error be name filename exc self :
  mixer_Sound be (os_path_join (sound_dir self) filename) = error exc ->
  load_sound be name filename self =
  (with_missing ({[name]} ∪ _missing_sounds self) self,
   [MixerSound (os_path_join (sound_dir self) filename);
    load_failed name (os_path_join (sound_dir self) filename) exc]).
Proof. intros H. unfold load_sound. by rewrite H. Qed.

Lemma load_sound_ok be name filename sound self :
  mixer_Sound be (os_path_join (sound_dir self) filename) = Ok sound ->
  load_sound be name filename self =
  (mk (sound_dir self) (<[name := sound]> (sounds self)) (sound_on self)
      (_missing_sounds self ∖ {[name]}),
   [MixerSound (os_path_join (sound_dir self) filename)]).
Proof.
  intros H. unfold load_sound. rewrite H. simpl. f_equal.
  destruct (decide (name ∈ _missing_sounds self)) as [Hin|Hout].
  - reflexivity.
  - unfold with_sounds. f_equal. set_solver.
Qed.

Lemma play_registered be name sound self :
  sound_on self = true -> sounds self !! name = Some sound ->
  play be name self = (self, [dispatch be sound]).
Proof.
  intros Hon Hreg. unfold play, dispatch. rewrite Hon, Hreg. simpl.
  by destruct (mixer_find_channel be).
Qed.

Lemma plays_registered name sound bes self :
  sound_on self = true -> sounds self !! name = Some sound ->
  run (plays name bes) self = (self, map (fun be => dispatch be sound) bes).
Proof.
  intros Hon Hreg. induction bes as [|be bes IH].
  - reflexivity.
  - unfold plays in *. rewrite map_cons, run_cons. simpl call.
    rewrite (play_registered _ _ _ _ Hon Hreg). simpl. by rewrite IH.
Qed.

Lemma playbacks_dispatch sound bes :
  playbacks (map (fun be => dispatch be sound) bes) = map (fun _ => sound) bes.
Proof.
  induction bes as [|be bes IH]; [reflexivity|].
  simpl. unfold playbacks in *. simpl. rewrite IH. unfold dispatch.
  by destruct (mixer_find_channel be).
Qed.

(** C9: when [load_sound] fails for a name that an earlier load registered,
    the registry is left as it was, so the name still maps to the earlier
    handle, and every later [play] of that name with sound on dispatches
    that handle, once per call. *)
Theorem failed_reload_keeps_sound (be : Backend) (name filename exc : string)
    (sound : Sound) (self : SoundManager.t) (later : list Backend) :
  sounds self !! name = Some sound ->
  mixer_Sound be (os_path_join (sound_dir self) filename) = error exc ->
  let self' := (load_sound be name filename self).1 in
  sounds self' = sounds self /\
  sounds self' !! name = Some sound /\
  (sound_on self = true ->
   run (plays name later) self' =
     (self', map (fun be' => dispatch be' sound) later) /\
   playbacks (run (plays name later) self').2 = map (fun _ => sound) later).
Proof.
  intros Hreg Hbe self'. subst self'.
  rewrite (load_sound_error _ _ _ _ _ Hbe). simpl.
  split; [reflexivity|]. split; [exact Hreg|]. intros Hon.
  rewrite (plays_registered name sound) by done. simpl.
  split; [reflexivity|apply playbacks_dispatch].
Qed.

Lemma failed_reload_keeps_sound_witness :
  sounds with_jump !! "jump" = Some (SoundObj 21) /\
  mixer_Sound backend_absent (os_path_join (sound_dir with_jump) "jump.mp3")
    = error "Unable to open file" /\
  sound_on with_jump = true /\
  playbacks
    (run (plays "jump" [backend_ok; backend_absent])
         (load_sound backend_absent "jump" "jump.mp3" with_jump).1).2
  = [SoundObj 21; SoundObj 21].
Proof.
  assert (H1 : sounds with_jump !! "jump" = Some (SoundObj 21))
    by (vm_compute; reflexivity).
  assert (H2 : mixer_Sound backend_absent
                 (os_path_join (sound_dir with_jump) "jump.mp3")
               = error "Unable to open file") by reflexivity.
  assert (H3 : sound_on with_jump = true) by reflexivity.
  split; [exact H1|]. split; [exact H2|]. split; [exact H3|].
  exact (proj2 (proj2 (proj2
    (failed_reload_keeps_sound backend_absent "jump" "jump.mp3"
       "Unable to open file" (SoundObj 21) with_jump
       [backend_ok; backend_absent] H1 H2)) H3)).
Defined.

(** ** C2, C10: the warning for a name that is not registered *)

Lemma play_unregistered be name self :
  sound_on self = true -> sounds self !! name = None ->
  play be name self = _warn_missing_sound name self.
Proof. intros Hon Hreg. unfold play. by rewrite Hon, Hreg. Qed.

Lemma plays_known_missing name bes self :
  sound_on self = true -> sounds self !! name = None ->
  name ∈ _missing_sounds self ->
  run (plays name bes) self = (self, []).
Proof.
  intros Hon Hreg Hin. induction bes as [|be bes IH]; [reflexivity|].
  unfold plays in *. rewrite map_cons, run_cons. simpl call.
  rewrite play_unregistered, warn_known by done. simpl. by rewrite IH.
Qed.

(** C2, as amended: for a name that is not in the registry, with sound on,
    any number of consecutive [play name] calls dispatch no playback and log
    at most one "is not registered" warning in total: exactly one, on the
    first call, when the name is not yet in the missing set, and none at all
    when it already is (a failed [load_sound] or an earlier warning has put
    it there).  The registry is not changed and the name ends up missing. *)
Theorem repeated_play_warns_at_most_once (name : string) (bes : list Backend)
    (self : SoundManager.t) :
  sounds self !! name = None ->
  sound_on self = true ->
  let result := run (plays name bes) self in
  result.2 = first_warning name bes self /\
  playbacks result.2 = [] /\
  (length (missing_warnings result.2) <= 1)%nat /\
  (name ∈ _missing_sounds self -> missing_warnings result.2 = []) /\
  (name ∉ _missing_sounds self -> bes <> [] ->
   missing_warnings result.2 = [name] /\ (name ∈ _missing_sounds result.1)) /\
  sounds result.1 = sounds self.
Proof.
  intros Hreg Hon result. subst result.
  assert (Hrun : run (plays name bes) self =
                 (if decide (name ∈ _missing_sounds self) then self
                  else match bes with
                       | [] => self
                       | _ :: _ =>
                           with_missing ({[name]} ∪ _missing_sounds self) self
                       end,
                  first_warning name bes self)).
  { unfold first_warning.
    destruct (decide (name ∈ _missing_sounds self)) as [Hin|Hout].
    - by apply plays_known_missing.
    - destruct bes as [|be bes]; [reflexivity|].
      unfold plays. rewrite map_cons, run_cons. simpl call.
      rewrite play_unregistered, warn_new by done. simpl.
      fold (plays name bes).
      rewrite plays_known_missing; simpl; [reflexivity|done|done|set_solver]. }
  rewrite Hrun. simpl. unfold first_warning.
  destruct (decide (name ∈ _missing_sounds self)) as [Hin|Hout].
  - simpl. repeat split; try done. lia.
  - destruct bes as [|be bes]; simpl.
    + repeat split; try done. lia.
    + repeat split; try done. set_solver.
Qed.

Lemma repeated_play_warns_at_most_once_witness :
  sounds fresh !! "ghost" = None /\
  sound_on fresh = true /\
  (run (plays "ghost" (replicate 5 backend_ok)) fresh).2
    = [not_registered "ghost"].
Proof.
  split; [reflexivity|]. split; [reflexivity|].
  exact (proj1 (repeated_play_warns_at_most_once "ghost"
                  (replicate 5 backend_ok) fresh eq_refl eq_refl)).
Defined.

(** C2 as stated fails: after a failed load of "ghost" the name is not in
    the registry and sound is on, yet five consecutive [play "ghost"] calls
    log no warning at all, not exactly one. *)
Lemma five_plays_after_failed_load_log_nothing :
  sounds with_ghost_missing !! "ghost" = None /\
  sound_on with_ghost_missing = true /\
  length (warnings
    (run (plays "ghost" (replicate 5 backend_absent)) with_ghost_missing).2)
  <> 1%nat.
Proof.
  split; [vm_compute; reflexivity|]. split; [reflexivity|].
  vm_compute. discriminate.
Qed.

(** Closes a goal whose premise finds a name among the warnings of a trace
    that has none. *)
Ltac nothing_logged :=
  let H := fresh "H" in
  simpl; intros H; by apply not_elem_of_nil in H.

Lemma missing_warnings_warn name name' self :
  name' ∈ missing_warnings (_warn_missing_sound name self).2 ->
  name' = name /\ (name ∉ _missing_sounds self) /\
  (name ∈ _missing_sounds (_warn_missing_sound name self).1) /\
  missing_warnings (_warn_missing_sound name self).2 = [name].
Proof.
  unfold _warn_missing_sound.
  destruct (decide (name ∈ _missing_sounds self)) as [Hin|Hout]; simpl.
  - intros H. by apply not_elem_of_nil in H.
  - unfold missing_warnings. simpl. intros H.
    apply list_elem_of_singleton in H. subst name'.
    repeat split; try done. set_solver.
Qed.

(** C10, as amended: while the store is muted, [play] of a name that is not
    registered logs nothing and leaves the missing set alone.  The "is not
    registered" warning for a name is logged only by a call that reaches
    [_warn_missing_sound] while the name is not yet in the missing set, and
    that call puts it there: a [play] of the name with sound on, a
    [set_volume] of the name whatever the mute flag is, or a [play_music] of
    it with sound on when the file does not exist. *)
Theorem missing_warning_sources (be : Backend) (c : Call) (name : string)
    (self : SoundManager.t) :
  (sound_on self = false -> sounds self !! name = None ->
   play be name self = (self, []) /\
   missing_warnings (play be name self).2 = [] /\
   _missing_sounds (play be name self).1 = _missing_sounds self) /\
  (name ∈ missing_warnings (call be c self).2 ->
   (name ∉ _missing_sounds self) /\
   (name ∈ _missing_sounds (call be c self).1) /\
   missing_warnings (call be c self).2 = [name] /\
   ((c = play_ name /\ sound_on self = true /\ sounds self !! name = None) \/
    ((exists volume, c = set_volume_ name volume) /\
     sounds self !! name = None) \/
    ((exists loops, c = play_music_ name loops) /\ sound_on self = true /\
     os_path_exists be (os_path_join (sound_dir self) name) = false))).
Proof.
  split.
  - intros Hoff _. unfold play. rewrite Hoff. simpl. done.
  - destruct c as [n f|n|n v| |f l| | |]; simpl call.
    + unfold load_sound. destruct (mixer_Sound be _); nothing_logged.
    + unfold play. destruct (sound_on self) eqn:Hon; simpl;
        [|nothing_logged].
      destruct (sounds self !! n) as [sound|] eqn:Hreg.
      * destruct (mixer_find_channel be); nothing_logged.
      * intros H. destruct (missing_warnings_warn _ _ _ H) as (->&?&?&?).
        repeat split; try done. left. done.
    + unfold set_volume. destruct (sounds self !! n) as [sound|] eqn:Hreg;
        [nothing_logged|].
      intros H. destruct (missing_warnings_warn _ _ _ H) as (->&?&?&?).
      repeat split; try done. right; left. split; [by exists v|done].
    + nothing_logged.
    + unfold play_music. destruct (sound_on self) eqn:Hon; simpl;
        [|nothing_logged].
      destruct (os_path_exists be _) eqn:Hex; simpl.
      * destruct (mixer_music_load be _);
          [destruct (mixer_music_play be l)|]; nothing_logged.
      * intros H. destruct (missing_warnings_warn _ _ _ H) as (->&?&?&?).
        repeat split; try done. right; right.
        split; [by exists l|done].
    + nothing_logged.
    + nothing_logged.
    + nothing_logged.
Qed.

Lemma missing_warning_sources_witness :
  sound_on muted_with_jump = false /\
  sounds muted_with_jump !! "ghost" = None /\
  play backend_ok "ghost" muted_with_jump = (muted_with_jump, []) /\
  "ghost" ∈ missing_warnings
    (call backend_ok (set_volume_ "ghost" (1 # 10)) muted_with_jump).2 /\
  missing_warnings
    (call backend_ok (set_volume_ "ghost" (1 # 10)) muted_with_jump).2
  = ["ghost"].
Proof.
  assert (H1 : sound_on muted_with_jump = false) by reflexivity.
  assert (H2 : sounds muted_with_jump !! "ghost" = None)
    by (vm_compute; reflexivity).
  assert (H3 : "ghost" ∈ missing_warnings
            (call backend_ok (set_volume_ "ghost" (1 # 10)) muted_with_jump).2)
    by (apply (bool_decide_unpack _); vm_compute; exact I).
  split; [exact H1|]. split; [exact H2|].
  split.
  - exact (proj1 (proj1 (missing_warning_sources backend_ok
             (set_volume_ "ghost" (1 # 10)) "ghost" muted_with_jump) H1 H2)).
  - split; [exact H3|].
    exact (proj1 (proj2 (proj2 (proj2 (missing_warning_sources backend_ok
             (set_volume_ "ghost" (1 # 10)) "ghost" muted_with_jump) H3)))).
Defined.

(** C10 as stated fails in its last part: with the store muted, a
    [set_volume] of a name that is not registered logs the warning and
    records the name as missing; the mute flag is not looked at. *)
Lemma muted_set_volume_warns :
  sound_on muted_with_jump = false /\
  sounds muted_with_jump !! "ghost" = None /\
  (set_volume "ghost" (1 # 10) muted_with_jump).2 = [not_registered "ghost"] /\
  "ghost" ∈ _missing_sounds (set_volume "ghost" (1 # 10) muted_with_jump).1.
Proof.
  split; [reflexivity|]. split; [vm_compute; reflexivity|].
  split; [vm_compute; reflexivity|].
  apply (bool_decide_unpack _). vm_compute. exact I.
Qed.

(** ** C1: registry and missing set *)

Lemma warn_keeps_apart name self :
  sounds self !! name = None ->
  registry_missing_disjoint self ->
  registry_missing_disjoint (_warn_missing_sound name self).1.
Proof.
  unfold registry_missing_disjoint, _warn_missing_sound. intros Hreg Hinv.
  apply not_elem_of_dom in Hreg.
  destruct (decide (name ∈ _missing_sounds self)); simpl; set_solver.
Qed.

Lemma call_keeps_apart be c self :
  registry_missing_disjoint self ->
  keeps_apart be c self = true ->
  registry_missing_disjoint (call be c self).1.
Proof.
  intros Hinv Hc. destruct c as [n f|n|n v| |f l| | |]; simpl in *; try done.
  - destruct (mixer_Sound be (os_path_join (sound_dir self) f))
      as [sound|exc] eqn:Hbe.
    + rewrite (load_sound_ok _ _ _ _ _ Hbe).
      unfold registry_missing_disjoint in *. simpl.
      rewrite dom_insert_L. set_solver.
    + rewrite (load_sound_error _ _ _ _ _ Hbe).
      apply bool_decide_eq_true in Hc. apply not_elem_of_dom in Hc.
      unfold registry_missing_disjoint in *. simpl. set_solver.
  - unfold play. destruct (sound_on self); simpl; [|done].
    destruct (sounds self !! n) eqn:Hreg.
    + by destruct (mixer_find_channel be).
    + by apply warn_keeps_apart.
  - unfold set_volume. destruct (sounds self !! n) eqn:Hreg; [done|].
    by apply warn_keeps_apart.
  - unfold play_music. destruct (sound_on self); simpl in *; [|done].
    destruct (os_path_exists be _); simpl in *.
    + destruct (mixer_music_load be _); [|done].
      by destruct (mixer_music_play be l).
    + apply bool_decide_eq_true in Hc. by apply warn_keeps_apart.
Qed.

(** C1, as amended: over every history of store calls in which no
    [load_sound] fails for a name that is in the registry at that moment and
    no [play_music] of a non-existent file, with sound on, is given a
    registered name as its file name, no name is both a key of the registry
    and a member of the missing set: the property holds of a new store and
    every such call keeps it.  A [load_sound] that succeeds leaves its name
    registered and out of the missing set, whatever the store was. *)
Theorem registry_missing_kept_apart (history : list (Backend * Call))
    (dir : string) (self : SoundManager.t) (be : Backend)
    (name filename : string) (sound : Sound) :
  (all_keep_apart history (__init__ dir) = true ->
   registry_missing_disjoint (run history (__init__ dir)).1) /\
  (registry_missing_disjoint self ->
   all_keep_apart history self = true ->
   registry_missing_disjoint (run history self).1) /\
  (mixer_Sound be (os_path_join (sound_dir self) filename) = Ok sound ->
   sounds (load_sound be name filename self).1 !! name = Some sound /\
   name ∉ _missing_sounds (load_sound be name filename self).1).
Proof.
  assert (Hrun : forall self0, registry_missing_disjoint self0 ->
            all_keep_apart history self0 = true ->
            registry_missing_disjoint (run history self0).1).
  { induction history as [|[be' c] rest IH]; intros self0 Hinv Hall.
    - exact Hinv.
    - simpl in Hall. apply andb_prop in Hall as [Hc Hrest].
      rewrite run_cons. simpl. apply IH; [|exact Hrest].
      by apply call_keeps_apart. }
  split; [|split].
  - apply Hrun. unfold registry_missing_disjoint, __init__. simpl.
    rewrite dom_empty_L. apply disjoint_empty_l.
  - apply Hrun.
  - intros Hbe. rewrite (load_sound_ok _ _ _ _ _ Hbe). simpl.
    split; [apply lookup_insert_eq|set_solver].
Qed.

Lemma registry_missing_kept_apart_witness :
  all_keep_apart late_load (__init__ "assets/sound") = true /\
  registry_missing_disjoint (run late_load (__init__ "assets/sound")).1 /\
  mixer_Sound backend_ok
    (os_path_join (sound_dir with_ghost_missing) "missing.mp3")
    = Ok (SoundObj 24) /\
  "ghost" ∉ _missing_sounds
    (load_sound backend_ok "ghost" "missing.mp3" with_ghost_missing).1.
Proof.
  assert (H1 : all_keep_apart late_load (__init__ "assets/sound") = true)
    by (vm_compute; reflexivity).
  assert (H2 : mixer_Sound backend_ok
                 (os_path_join (sound_dir with_ghost_missing) "missing.mp3")
               = Ok (SoundObj 24)) by (vm_compute; reflexivity).
  split; [exact H1|].
  split.
  - exact (proj1 (registry_missing_kept_apart late_load "assets/sound" fresh
                    backend_ok "ghost" "missing.mp3" (SoundObj 24)) H1).
  - split; [exact H2|].
    exact (proj2 (proj2 (proj2 (registry_missing_kept_apart []
                    "assets/sound" with_ghost_missing backend_ok "ghost"
                    "missing.mp3" (SoundObj 24))) H2)).
Defined.

(** C1 as stated fails: when "jump" is loaded and a second load of "jump"
    then fails, the name is a key of the registry and also a member of the
    missing set. *)
Lemma failed_reload_breaks_disjointness :
  is_Some (sounds (run reload_fails fresh).1 !! "jump") /\
  "jump" ∈ _missing_sounds (run reload_fails fresh).1 /\
  ~ registry_missing_disjoint (run reload_fails fresh).1.
Proof.
  split; [apply (bool_decide_unpack _); vm_compute; exact I|].
  split; [apply (bool_decide_unpack _); vm_compute; exact I|].
  unfold registry_missing_disjoint.
  apply (proj1 (bool_decide_eq_false _)). vm_compute. reflexivity.
Qed.

(** ** C4: the loading sequence *)

Lemma enumerate_app {A : Type} (l1 l2 : list A) (start : nat) :
  enumerate (l1 ++ l2) start =
  enumerate l1 start ++ enumerate l2 (start + length l1).
Proof.
  revert start. induction l1 as [|x l1 IH]; intros start; simpl.
  - by rewrite Nat.add_0_r.
  - rewrite IH. do 3 f_equal. lia.
Qed.

Lemma enumerate_fst {A : Type} (l : list A) (start : nat) :
  map fst (enumerate l start) = seq start (length l).
Proof.
  revert start. induction l as [|x l IH]; intros start; simpl; [done|].
  by rewrite IH.
Qed.

Lemma enumerate_snd {A : Type} (l : list A) (start : nat) :
  map snd (enumerate l start) = l.
Proof.
  revert start. induction l as [|x l IH]; intros start; simpl; [done|].
  by rewrite IH.
Qed.

Lemma enumerate_index {A : Type} (l : list A) (start i : nat) (x : A) :
  (i, x) ∈ enumerate l start -> (start <= i < start + length l)%nat.
Proof.
  revert start. induction l as [|y l IH]; intros start; simpl.
  - intros H. by apply not_elem_of_nil in H.
  - intros H. apply elem_of_cons in H as [H|H].
    + inversion H. lia.
    + apply IH in H. lia.
Qed.

Lemma warn_sound_dir name self :
  sound_dir (_warn_missing_sound name self).1 = sound_dir self.
Proof. unfold _warn_missing_sound. by destruct (decide _). Qed.

Lemma load_sound_sound_dir be name filename self :
  sound_dir (load_sound be name filename self).1 = sound_dir self.
Proof.
  unfold load_sound. destruct (mixer_Sound be _); simpl; [|done].
  by destruct (decide _).
Qed.

Lemma set_volume_sound_dir name volume self :
  sound_dir (set_volume name volume self).1 = sound_dir self.
Proof.
  unfold set_volume. destruct (sounds self !! name); [done|].
  apply warn_sound_dir.
Qed.

Section Loading.

Variables (world : nat -> Moment) (screen : Surface).
Variables (splash : option Surface) (font : Font) (total : nat).

(** One iteration: the state is the entry attempted, and the trace is the
    load, the volume, the frame and the tick, in that order. *)
Lemma load_entry_eq be index name filename volume sm :
  load_entry be screen splash font index total (name, (filename, volume)) sm =
  ((set_volume name volume (load_sound be name filename sm).1).1,
   (load_sound be name filename sm).2 ++
   (set_volume name volume (load_sound be name filename sm).1).2 ++
   _draw_loading_screen screen splash font index total ++ [ClockTick 60]).
Proof.
  unfold load_entry. rewrite !and_then_eq. simpl. by rewrite <- app_assoc.
Qed.

Lemma load_entries_cons index entry rest sm :
  load_entries world screen splash font total ((index, entry) :: rest) sm =
  let step := load_entry (backend (world index)) screen splash font
                         index total entry sm in
  ((load_entries world screen splash font total rest step.1).1,
   EventGet :: step.2 ++
   (load_entries world screen splash font total rest step.1).2).
Proof. simpl load_entries. rewrite !and_then_eq. reflexivity. Qed.

Lemma for_each_calm items sm :
  Forall (fun item => quit_seen (event_get (world item.1)) = false) items ->
  for_each world screen splash font total items sm =
  Returned (load_entries world screen splash font total items sm).1
           (load_entries world screen splash font total items sm).2.
Proof.
  intros Hcalm. revert sm.
  induction Hcalm as [|[index entry] rest Hq Hcalm IH]; intros sm.
  - reflexivity.
  - rewrite load_entries_cons. simpl in *. rewrite Hq.
    destruct (load_entry _ _ _ _ _ _ _ sm) as [sm' trace]. simpl.
    by rewrite IH.
Qed.

Lemma for_each_quit pre index entry post sm :
  Forall (fun item => quit_seen (event_get (world item.1)) = false) pre ->
  quit_seen (event_get (world index)) = true ->
  for_each world screen splash font total (pre ++ (index, entry) :: post) sm =
  SystemExit (load_entries world screen splash font total pre sm).1
             ((load_entries world screen splash font total pre sm).2
              ++ [EventGet; PygameQuit; SysExit]).
Proof.
  intros Hcalm Hquit. revert sm.
  induction Hcalm as [|[i e] rest Hq Hcalm IH]; intros sm.
  - simpl. by rewrite Hquit.
  - rewrite load_entries_cons. simpl in *. rewrite Hq.
    destruct (load_entry _ _ _ _ _ _ _ sm) as [sm' trace]. simpl.
    rewrite IH. simpl. by rewrite <- app_assoc.
Qed.

Lemma load_entry_shows be index name filename volume sm :
  let step := load_entry be screen splash font index total
                         (name, (filename, volume)) sm in
  step.1 = (set_volume name volume (load_sound be name filename sm).1).1 /\
  sound_dir step.1 = sound_dir sm /\
  loads step.2 = [os_path_join (sound_dir sm) filename] /\
  frames step.2 = [loading_text index total] /\
  flips step.2 = 1%nat /\
  drains step.2 = 0%nat.
Proof.
  cbv zeta. rewrite load_entry_eq. cbn [fst snd].
  split; [reflexivity|].
  split; [by rewrite set_volume_sound_dir, load_sound_sound_dir|].
  unfold loads, frames, flips, drains. rewrite !omap_app.
  unfold load_sound, set_volume, _warn_missing_sound, _draw_loading_screen.
  destruct (mixer_Sound be _) as [sound|exc]; simpl;
    repeat (match goal with
            | |- context [decide ?P] => destruct (decide P); simpl
            | |- context [match ?m !! ?k with _ => _ end] =>
                destruct (m !! k); simpl
            end);
    destruct splash; simpl; done.
Qed.

Lemma load_entries_shows items sm :
  let done := load_entries world screen splash font total items sm in
  done.1 = foldl (attempt world) sm items /\
  sound_dir done.1 = sound_dir sm /\
  loads done.2 =
    map (fun item : nat * Setting => os_path_join (sound_dir sm) item.2.2.1)
        items /\
  frames done.2 =
    map (fun item : nat * Setting => loading_text item.1 total) items /\
  flips done.2 = length items /\
  drains done.2 = length items.
Proof.
  cbv zeta. revert sm.
  induction items as [|[index [name [filename volume]]] rest IH]; intros sm.
  - simpl. done.
  - rewrite load_entries_cons. cbv zeta. cbn [fst snd].
    destruct (load_entry_shows (backend (world index)) index name filename
                volume sm)
      as (Hst & Hdir & Hloads & Hframes & Hfl & Hdr).
    destruct (IH (load_entry (backend (world index)) screen splash font
                    index total (name, (filename, volume)) sm).1)
      as (IH1 & IH2 & IH3 & IH4 & IH5 & IH6).
    rewrite Hdir in IH2, IH3.
    repeat split.
    + rewrite IH1, Hst. reflexivity.
    + exact IH2.
    + unfold loads in *. cbn [omap list_omap]. rewrite omap_app, Hloads, IH3.
      reflexivity.
    + unfold frames in *. cbn [omap list_omap]. rewrite omap_app, Hframes, IH4.
      reflexivity.
    + unfold flips in *. cbn [omap list_omap].
      rewrite omap_app, length_app, Hfl, IH5. reflexivity.
    + unfold drains in *. cbn [omap list_omap length].
      rewrite omap_app, length_app, Hdr, IH6. reflexivity.
Qed.

End Loading.

Lemma calm_items (world : nat -> Moment) (settings : list Setting) :
  (forall i : nat, (1 <= i <= length settings)%nat ->
                   quit_seen (event_get (world i)) = false) ->
  Forall (fun item : nat * Setting =>
            quit_seen (event_get (world item.1)) = false)
         (enumerate settings 1).
Proof.
  intros Hcalm. apply Forall_forall. intros [i entry] Hin.
  apply enumerate_index in Hin. simpl. apply Hcalm. lia.
Qed.

Lemma frames_numbered (settings : list Setting) (total : nat) :
  map (fun item : nat * Setting => loading_text item.1 total)
      (enumerate settings 1) =
  map (fun k => loading_text k total) (seq 1 (length settings)).
Proof.
  rewrite <- (enumerate_fst settings 1), map_map. reflexivity.
Qed.

Lemma loads_listed (dir : string) (settings : list Setting) (start : nat) :
  map (fun item : nat * Setting => os_path_join dir item.2.2.1)
      (enumerate settings start) =
  map (fun entry : Setting => os_path_join dir entry.2.1) settings.
Proof.
  rewrite <- (enumerate_snd settings start) at 2. by rewrite map_map.
Qed.

(** C4: when the events drained at the start of some iteration contain a
    QUIT and none of the earlier iterations saw one, [_load_sounds] ends the
    process there: the entries before that iteration have been attempted
    and drawn exactly as in an undisturbed run, the entry of that iteration
    and all later ones are never handed to the store, and the trace ends
    with the drain, [pygame.quit()] and [sys.exit()].  The iteration is
    arbitrary, so the drain is made at the start of each one. *)
Theorem quit_halts_loading (world : nat -> Moment) (sm : SoundManager.t)
    (before after : list Setting) (entry : Setting) (screen : Surface)
    (splash : option Surface) :
  (forall i : nat, (1 <= i <= length before)%nat ->
                   quit_seen (event_get (world i)) = false) ->
  quit_seen (event_get (world (S (length before)))) = true ->
  let settings := before ++ entry :: after in
  let N := length settings in
  let done := load_entries world screen splash (FontObj 24) N
                           (enumerate before 1) sm in
  let trace := [FontNew 24; ClockNew] ++ done.2
               ++ [EventGet; PygameQuit; SysExit] in
  _load_sounds world sm settings screen splash = SystemExit done.1 trace /\
  done.1 = foldl (attempt world) sm (enumerate before 1) /\
  loads trace =
    map (fun e : Setting => os_path_join (sound_dir sm) e.2.1) before /\
  frames trace = map (fun k => loading_text k N) (seq 1 (length before)) /\
  drains trace = S (length before).
Proof.
  intros Hcalm Hquit settings N done trace. subst settings N done trace.
  destruct (load_entries_shows world screen splash (FontObj 24)
              (length (before ++ entry :: after)) (enumerate before 1) sm)
    as (H1 & _ & H3 & H4 & _ & H6).
  split.
  - unfold _load_sounds. cbv zeta. rewrite enumerate_app. simpl enumerate.
    rewrite for_each_quit; [reflexivity|by apply calm_items|exact Hquit].
  - split; [exact H1|].
    unfold loads, frames, drains in *. cbn [app omap list_omap].
    rewrite !omap_app. cbn [omap list_omap]. rewrite !app_nil_r.
    split; [by rewrite H3, loads_listed|].
    split; [by rewrite H4, frames_numbered|].
    rewrite length_app, H6. simpl.
    rewrite <- (length_map fst (enumerate before 1)), enumerate_fst.
    rewrite length_seq. lia.
Qed.

Lemma quit_halts_loading_witness :
  (forall i : nat, (1 <= i <= length (take 3 sound_settings))%nat ->
                   quit_seen (event_get (quit_at_fourth i)) = false) /\
  quit_seen (event_get (quit_at_fourth (S (length (take 3 sound_settings)))))
    = true /\
  loads
    ([FontNew 24; ClockNew] ++
     (load_entries quit_at_fourth splash_screen None (FontObj 24) 16
        (enumerate (take 3 sound_settings) 1) fresh).2 ++
     [EventGet; PygameQuit; SysExit])
  = [ "assets/sound/jump.mp3"; "assets/sound/hit.mp3";
      "assets/sound/pickup.mp3" ].
Proof.
  assert (Hcalm : forall i : nat,
            (1 <= i <= length (take 3 sound_settings))%nat ->
            quit_seen (event_get (quit_at_fourth i)) = false).
  { intros i Hi. simpl in Hi. unfold quit_at_fourth. simpl.
    destruct (decide (i = 4%nat)); [lia|reflexivity]. }
  assert (Hquit : quit_seen (event_get
            (quit_at_fourth (S (length (take 3 sound_settings))))) = true)
    by reflexivity.
  split; [exact Hcalm|]. split; [exact Hquit|].
  exact (proj1 (proj2 (proj2
    (quit_halts_loading quit_at_fourth fresh (take 3 sound_settings)
       (drop 4 sound_settings) ("stage_clear", ("stage_clear.mp3", 1 # 100)%Q)
       splash_screen None Hcalm Hquit)))).
Defined.

(** * Further properties *)

(** ** The store over single calls and histories *)

Ltac unfold_call :=
  unfold load_sound, play, set_volume, toggle_sound, play_music, stop_music,
    pause_music, unpause_music, _warn_missing_sound, with_missing,
    with_sounds, with_sound_on.

Ltac split_call :=
  repeat match goal with
    | |- context [match mixer_Sound ?be ?p with _ => _ end] =>
        destruct (mixer_Sound be p) eqn:?
    | |- context [match mixer_music_load ?be ?p with _ => _ end] =>
        destruct (mixer_music_load be p) eqn:?
    | |- context [match mixer_music_play ?be ?l with _ => _ end] =>
        destruct (mixer_music_play be l) eqn:?
    | |- context [match mixer_find_channel ?be with _ => _ end] =>
        destruct (mixer_find_channel be) eqn:?
    | |- context [os_path_exists ?be ?p] =>
        destruct (os_path_exists be p) eqn:?
    | |- context [sound_on ?s] => destruct (sound_on s) eqn:?
    | |- context [decide ?P] => destruct (decide P)
    | |- context [match ?m !! ?k with _ => _ end] => destruct (m !! k) eqn:?
    end; simpl.

Lemma call_sound_dir be c self :
  sound_dir (call be c self).1 = sound_dir self.
Proof. destruct c; simpl call; unfold_call; simpl; split_call; done. Qed.

Lemma run_sound_dir history self :
  sound_dir (run history self).1 = sound_dir self.
Proof.
  revert self. induction history as [|[be c] rest IH]; intros self; [done|].
  rewrite run_cons. simpl. by rewrite IH, call_sound_dir.
Qed.

(** X1: a [load_sound] that succeeds makes the name playable at once,
    whatever the store held for it before (nothing, an older handle, or a
    missing mark): with sound on, the next [play] of that name dispatches the
    new handle exactly once and logs nothing. *)
Theorem load_then_play (be be' : Backend) (name filename : string)
    (sound : Sound) (self : SoundManager.t) :
  mixer_Sound be (os_path_join (sound_dir self) filename) = Ok sound ->
  sound_on self = true ->
  (load_sound be name filename >>> play be' name) self =
    ((load_sound be name filename self).1,
     [MixerSound (os_path_join (sound_dir self) filename);
      dispatch be' sound]) /\
  playbacks ((load_sound be name filename >>> play be' name) self).2
    = [sound] /\
  warnings ((load_sound be name filename >>> play be' name) self).2 = [].
Proof.
  intros Hbe Hon.
  assert (Heq : (load_sound be name filename >>> play be' name) self =
                ((load_sound be name filename self).1,
                 [MixerSound (os_path_join (sound_dir self) filename);
                  dispatch be' sound])).
  { rewrite and_then_eq, (load_sound_ok _ _ _ _ _ Hbe). simpl.
    rewrite (play_registered be' name sound); [done|done|].
    simpl. apply lookup_insert_eq. }
  rewrite Heq. split; [done|]. unfold playbacks, warnings, dispatch. simpl.
  by destruct (mixer_find_channel be').
Qed.

Lemma load_then_play_witness :
  mixer_Sound backend_ok
    (os_path_join (sound_dir with_ghost_missing) "ghost.mp3")
    = Ok (SoundObj 22) /\
  sound_on with_ghost_missing = true /\
  playbacks ((load_sound backend_ok "ghost" "ghost.mp3" >>>
              play backend_absent "ghost") with_ghost_missing).2
  = [SoundObj 22].
Proof.
  assert (H1 : mixer_Sound backend_ok
                 (os_path_join (sound_dir with_ghost_missing) "ghost.mp3")
               = Ok (SoundObj 22)) by (vm_compute; reflexivity).
  split; [exact H1|]. split; [reflexivity|].
  exact (proj1 (proj2 (load_then_play backend_ok backend_absent "ghost"
                         "ghost.mp3" (SoundObj 22) with_ghost_missing
                         H1 eq_refl))).
Defined.

(** X2: of two loads of the same name that both succeed, only the second
    leaves a mark: the store after both is the store after the second alone,
    so the name maps to the second handle. *)
Theorem reload_overwrites (be1 be2 : Backend) (name file1 file2 : string)
    (sound1 sound2 : Sound) (self : SoundManager.t) :
  mixer_Sound be1 (os_path_join (sound_dir self) file1) = Ok sound1 ->
  mixer_Sound be2 (os_path_join (sound_dir self) file2) = Ok sound2 ->
  ((load_sound be1 name file1 >>> load_sound be2 name file2) self).1
    = (load_sound be2 name file2 self).1 /\
  sounds ((load_sound be1 name file1 >>> load_sound be2 name file2) self).1
    !! name = Some sound2.
Proof.
  intros H1 H2. rewrite and_then_eq. simpl.
  rewrite (load_sound_ok _ _ _ _ _ H1).
  rewrite (load_sound_ok be2 name file2 sound2 self H2).
  rewrite (load_sound_ok be2 name file2 sound2); [|exact H2]. simpl.
  split; [|apply lookup_insert_eq].
  f_equal; [apply insert_insert_eq|set_solver].
Qed.

Lemma reload_overwrites_witness :
  mixer_Sound backend_ok (os_path_join (sound_dir fresh) "jump.mp3")
    = Ok (SoundObj 21) /\
  mixer_Sound backend_ok (os_path_join (sound_dir fresh) "jump2.mp3")
    = Ok (SoundObj 22) /\
  sounds ((load_sound backend_ok "jump" "jump.mp3" >>>
           load_sound backend_ok "jump" "jump2.mp3") fresh).1 !! "jump"
  = Some (SoundObj 22).
Proof.
  assert (H1 : mixer_Sound backend_ok
                 (os_path_join (sound_dir fresh) "jump.mp3")
               = Ok (SoundObj 21)) by (vm_compute; reflexivity).
  assert (H2 : mixer_Sound backend_ok
                 (os_path_join (sound_dir fresh) "jump2.mp3")
               = Ok (SoundObj 22)) by (vm_compute; reflexivity).
  split; [exact H1|]. split; [exact H2|].
  exact (proj2 (reload_overwrites backend_ok backend_ok "jump" "jump.mp3"
                  "jump2.mp3" (SoundObj 21) (SoundObj 22) fresh H1 H2)).
Defined.

Lemma call_frame be c name self :
  subject c <> Some name ->
  sounds (call be c self).1 !! name = sounds self !! name /\
  (name ∈ _missing_sounds (call be c self).1 <-> name ∈ _missing_sounds self).
Proof.
  intros Hsub.
  destruct c as [n f|n|n v| |f l| | |]; simpl in Hsub; simpl call;
    unfold_call; simpl; split_call;
    try (split; [done|done]);
    try (split; [done|set_solver]).
  all: split; [apply lookup_insert_ne; congruence|set_solver].
Qed.

(** X3: a call about one name leaves every other name as it was: its
    registry entry is the same and it is in the missing set exactly when it
    was before. *)
Theorem other_names_untouched (be : Backend) (c : Call) (name : string)
    (self : SoundManager.t) :
  subject c <> Some name ->
  sounds (call be c self).1 !! name = sounds self !! name /\
  (name ∈ _missing_sounds (call be c self).1 <-> name ∈ _missing_sounds self).
Proof. apply call_frame. Qed.

Lemma other_names_untouched_witness :
  subject (load_sound_ "jump" "jump.mp3") <> Some "ghost" /\
  sounds (call backend_absent (load_sound_ "jump" "jump.mp3")
            with_ghost_missing).1 !! "ghost"
  = sounds with_ghost_missing !! "ghost".
Proof.
  assert (H : subject (load_sound_ "jump" "jump.mp3") <> Some "ghost")
    by (simpl; discriminate).
  split; [exact H|].
  exact (proj1 (other_names_untouched backend_absent
                  (load_sound_ "jump" "jump.mp3") "ghost"
                  with_ghost_missing H)).
Defined.

Lemma call_registry_grows be c name self :
  is_Some (sounds self !! name) ->
  is_Some (sounds (call be c self).1 !! name).
Proof.
  intros Hreg.
  destruct c as [n f|n|n v| |f l| | |]; simpl call; unfold_call; simpl;
    split_call; try done.
  all: destruct (decide (n = name)) as [->|Hne];
    [rewrite lookup_insert_eq; eauto|by rewrite lookup_insert_ne].
Qed.

Lemma call_registry_kept be c self :
  is_load c = false -> sounds (call be c self).1 = sounds self.
Proof.
  intros Hc.
  destruct c as [n f|n|n v| |f l| | |]; simpl in Hc; try discriminate;
    simpl call; unfold_call; simpl; split_call; done.
Qed.

(** X4: the store never forgets a sound and never moves its directory:
    over any history of calls a registered name stays registered and
    [sound_dir] stays what it was; and a history without [load_sound] calls
    leaves the whole registry as it was. *)
Theorem registry_only_grows (history : list (Backend * Call))
    (self : SoundManager.t) :
  dom (sounds self) ⊆ dom (sounds (run history self).1) /\
  sound_dir (run history self).1 = sound_dir self /\
  (forallb (fun bc : Backend * Call => negb (is_load bc.2)) history = true ->
   sounds (run history self).1 = sounds self).
Proof.
  split; [|split; [apply run_sound_dir|]].
  - revert self. induction history as [|[be c] rest IH]; intros self; [done|].
    rewrite run_cons. simpl. etrans; [|apply IH].
    intros name Hin. apply elem_of_dom. apply call_registry_grows.
    by apply elem_of_dom.
  - revert self. induction history as [|[be c] rest IH]; intros self Hno;
      [done|].
    simpl in Hno. apply andb_prop in Hno as [Hc Hrest].
    rewrite run_cons. simpl. rewrite IH by done.
    apply call_registry_kept. by apply negb_true_iff.
Qed.

Lemma registry_only_grows_witness :
  forallb (fun bc : Backend * Call => negb (is_load bc.2))
          (plays "ghost" [backend_ok; backend_absent]) = true /\
  sounds (run (plays "ghost" [backend_ok; backend_absent]) with_jump).1
  = sounds with_jump.
Proof.
  split; [reflexivity|].
  exact (proj2 (proj2 (registry_only_grows
                         (plays "ghost" [backend_ok; backend_absent])
                         with_jump)) eq_refl).
Defined.

Lemma call_sound_on be c self :
  sound_on (call be c self).1 =
  if is_toggle c then negb (sound_on self) else sound_on self.
Proof.
  destruct c as [n f|n|n v| |f l| | |]; simpl call; unfold_call; simpl;
    try done; destruct (sound_on self) eqn:Hon; simpl;
    repeat match goal with
      | |- context [match ?x with _ => _ end] => destruct x; simpl
      end; done.
Qed.

(** X5: only [toggle_sound] moves the mute flag: after any history the flag
    is the one before when the history holds an even number of
    [toggle_sound] calls and its negation when the number is odd. *)
Theorem mute_flag_parity (history : list (Backend * Call))
    (self : SoundManager.t) :
  sound_on (run history self).1 =
  if Nat.even (toggles history) then sound_on self else negb (sound_on self).
Proof.
  revert self. unfold toggles.
  induction history as [|[be c] rest IH]; intros self; [reflexivity|].
  rewrite run_cons. cbn [fst]. rewrite IH, call_sound_on.
  cbn [List.filter snd]. destruct (is_toggle c); [|done].
  cbn [length]. rewrite Nat.even_succ, <- Nat.negb_even.
  destruct (Nat.even _); simpl; [done|apply negb_involutive].
Qed.

Lemma call_missing_kept be c name self :
  name ∈ _missing_sounds self ->
  reloads name be c self = false ->
  name ∈ _missing_sounds (call be c self).1.
Proof.
  intros Hin Hre.
  destruct c as [n f|n|n v| |f l| | |]; simpl in Hre; simpl call;
    unfold_call; simpl; split_call; try done; try set_solver.
  all: apply andb_false_iff in Hre as [Hre|Hre]; [|discriminate];
    apply bool_decide_eq_false in Hre; set_solver.
Qed.

(** X6: a name leaves the missing set only through a [load_sound] of that
    name that succeeds: any other call keeps it there, and so does any
    history that holds no such load. *)
Theorem missing_left_only_by_load (history : list (Backend * Call))
    (name : string) (self : SoundManager.t) :
  name ∈ _missing_sounds self ->
  never_reloaded name history self = true ->
  name ∈ _missing_sounds (run history self).1.
Proof.
  revert self. induction history as [|[be c] rest IH]; intros self Hin Hnever;
    [done|].
  simpl in Hnever. apply andb_prop in Hnever as [Hc Hrest].
  rewrite run_cons. simpl. apply IH; [|done].
  apply call_missing_kept; [done|]. by apply negb_true_iff.
Qed.

Lemma missing_left_only_by_load_witness :
  "ghost" ∈ _missing_sounds with_ghost_missing /\
  never_reloaded "ghost" ghost_requests with_ghost_missing = true /\
  "ghost" ∈ _missing_sounds (run ghost_requests with_ghost_missing).1.
Proof.
  assert (H1 : "ghost" ∈ _missing_sounds with_ghost_missing)
    by (apply (bool_decide_unpack _); vm_compute; exact I).
  assert (H2 : never_reloaded "ghost" ghost_requests with_ghost_missing = true)
    by (vm_compute; reflexivity).
  split; [exact H1|]. split; [exact H2|].
  exact (missing_left_only_by_load ghost_requests "ghost" with_ghost_missing
           H1 H2).
Defined.

Lemma times_warned_app name t1 t2 :
  times_warned name (t1 ++ t2) =
  (times_warned name t1 + times_warned name t2)%nat.
Proof.
  unfold times_warned, missing_warnings.
  by rewrite omap_app, filter_app, length_app.
Qed.

Lemma times_warned_warn name n self :
  times_warned name (_warn_missing_sound n self).2 =
  if decide (n ∈ _missing_sounds self) then 0%nat
  else if decide (n = name) then 1%nat else 0%nat.
Proof.
  unfold _warn_missing_sound, times_warned, missing_warnings.
  destruct (decide (n ∈ _missing_sounds self)); simpl; [done|].
  rewrite filter_cons, filter_nil. by destruct (decide (n = name)).
Qed.

Lemma warn_marks name self :
  name ∈ _missing_sounds (_warn_missing_sound name self).1.
Proof.
  unfold _warn_missing_sound.
  destruct (decide (name ∈ _missing_sounds self)); simpl; set_solver.
Qed.

(** A call logs the warning for [name] at most once, only when the name is
    not yet marked missing, and marks it. *)
Lemma call_times_warned be c name self :
  times_warned name (call be c self).2 = 0%nat \/
  (times_warned name (call be c self).2 = 1%nat /\
   (name ∉ _missing_sounds self) /\
   (name ∈ _missing_sounds (call be c self).1)).
Proof.
  assert (Hwarn : forall n,
    times_warned name (_warn_missing_sound n self).2 = 0%nat \/
    (times_warned name (_warn_missing_sound n self).2 = 1%nat /\
     (name ∉ _missing_sounds self) /\
     (name ∈ _missing_sounds (_warn_missing_sound n self).1))).
  { intros n. rewrite times_warned_warn.
    destruct (decide (n ∈ _missing_sounds self)) as [Hin|Hout]; [by left|].
    destruct (decide (n = name)) as [->|Hne]; [|by left].
    right. split; [done|]. split; [done|apply warn_marks]. }
  destruct c as [n f|n|n v| |f l| | |]; simpl call.
  - left. unfold load_sound. by destruct (mixer_Sound be _).
  - unfold play. destruct (sound_on self); simpl; [|by left].
    destruct (sounds self !! n); [|apply Hwarn].
    left. by destruct (mixer_find_channel be).
  - unfold set_volume. destruct (sounds self !! n); [by left|apply Hwarn].
  - by left.
  - unfold play_music. destruct (sound_on self); simpl; [|by left].
    destruct (os_path_exists be _); simpl; [|apply Hwarn].
    left. destruct (mixer_music_load be _); [|done].
    by destruct (mixer_music_play be l).
  - by left.
  - by left.
  - by left.
Qed.

Lemma marked_never_warned history name self :
  name ∈ _missing_sounds self ->
  never_reloaded name history self = true ->
  times_warned name (run history self).2 = 0%nat.
Proof.
  revert self. induction history as [|[be c] rest IH]; intros self Hin Hnever;
    [done|].
  simpl in Hnever. apply andb_prop in Hnever as [Hc Hrest].
  apply negb_true_iff in Hc.
  rewrite run_cons. cbn [snd]. rewrite times_warned_app.
  rewrite IH; [|by apply call_missing_kept|done].
  destruct (call_times_warned be c name self) as [H0|(_ & Hout & _)]; [lia|done].
Qed.

(** X7: the "is not registered" warning is logged at most once per name
    over the whole life of the store, as long as the name is not taken out
    of the missing set again by a successful [load_sound]: over any history
    without such a load the warning for the name appears at most once, and
    not at all when the name was already marked missing. *)
Theorem warned_once_per_lifetime (history : list (Backend * Call))
    (name : string) (self : SoundManager.t) :
  never_reloaded name history self = true ->
  (times_warned name (run history self).2 <= 1)%nat /\
  (name ∈ _missing_sounds self ->
   times_warned name (run history self).2 = 0%nat).
Proof.
  intros Hnever. split; [|intros Hin; by apply marked_never_warned].
  revert self Hnever.
  induction history as [|[be c] rest IH]; intros self Hnever.
  - unfold times_warned. simpl. lia.
  - simpl in Hnever. apply andb_prop in Hnever as [Hc Hrest].
    rewrite run_cons. cbn [snd]. rewrite times_warned_app.
    destruct (call_times_warned be c name self) as [H0|(H1 & _ & Hin)].
    + rewrite H0. apply IH. exact Hrest.
    + rewrite H1, marked_never_warned by done. lia.
Qed.

Lemma warned_once_per_lifetime_witness :
  never_reloaded "ghost" ghost_requests fresh = true /\
  (times_warned "ghost" (run ghost_requests fresh).2 <= 1)%nat.
Proof.
  assert (H : never_reloaded "ghost" ghost_requests fresh = true)
    by (vm_compute; reflexivity).
  split; [exact H|].
  exact (proj1 (warned_once_per_lifetime ghost_requests "ghost" fresh H)).
Defined.

(** The condition of X7 is needed: a successful load takes the name out of
    the missing set, and an unmuted [play_music] of a file of that name that
    does not exist then logs the warning a second time. *)
Example warned_again_after_reload :
  times_warned "theme"
    (run [ (backend_absent, play_music_ "theme" (-1));
           (backend_ok, load_sound_ "theme" "theme.mp3");
           (backend_absent, play_music_ "theme" (-1)) ] fresh).2 = 2%nat.
Proof. vm_compute. reflexivity. Qed.

(** X8: loading does not look at the mute flag: [load_sound] and
    [set_volume] do the same to the registry, to the missing set and to the
    backend whether sound is on or off, so each commutes with
    [toggle_sound]. *)
Theorem loading_ignores_mute (be : Backend) (name filename : string)
    (volume : Q) (self : SoundManager.t) :
  (toggle_sound >>> load_sound be name filename) self =
    (load_sound be name filename >>> toggle_sound) self /\
  (toggle_sound >>> set_volume name volume) self =
    (set_volume name volume >>> toggle_sound) self.
Proof.
  rewrite !and_then_eq. split.
  - unfold_call. simpl. destruct (mixer_Sound be _); simpl; [|done].
    by destruct (decide _).
  - unfold_call. simpl. destruct (sounds self !! name); simpl; [done|].
    by destruct (decide _).
Qed.

(** ** The loading sequence: what it logs, sets and leaves behind *)

Lemma trace_of_emit pre o : trace_of (emit pre o) = pre ++ trace_of o.
Proof. by destruct o. Qed.

Lemma store_of_emit pre o : store_of (emit pre o) = store_of o.
Proof. by destruct o. Qed.

Lemma quit_seen_iff events : quit_seen events = true <-> QUIT ∈ events.
Proof.
  induction events as [|[|code] events IH]; simpl.
  - split; [discriminate|]. intros H. by apply not_elem_of_nil in H.
  - split; [intros _; apply list_elem_of_here|done].
  - rewrite IH. split; [apply list_elem_of_further|].
    intros H. apply elem_of_cons in H as [H|H]; [discriminate|done].
Qed.

Section Entries.

Variables (world : nat -> Moment) (screen : Surface).
Variables (splash : option Surface) (font : Font) (total : nat).

Lemma for_each_cons index entry rest sm :
  for_each world screen splash font total ((index, entry) :: rest) sm =
  if quit_seen (event_get (world index))
  then SystemExit sm [EventGet; PygameQuit; SysExit]
  else emit (EventGet ::
             (load_entry (backend (world index)) screen splash font
                         index total entry sm).2)
            (for_each world screen splash font total rest
               (load_entry (backend (world index)) screen splash font
                           index total entry sm).1).
Proof.
  simpl. destruct (quit_seen _); [done|].
  by destruct (load_entry _ _ _ _ _ _ _ sm).
Qed.

(** One iteration after the drain, spelled out.  After a failed load the
    volume goes to the handle an earlier load registered, if there is one,
    and is otherwise dropped without a warning. *)
Lemma load_entry_trace be index name filename volume sm :
  (load_entry be screen splash font index total
              (name, (filename, volume)) sm).2 =
  MixerSound (os_path_join (sound_dir sm) filename) ::
  match mixer_Sound be (os_path_join (sound_dir sm) filename) with
  | Ok sound => [SoundSetVolume sound volume]
  | error exc =>
      load_failed name (os_path_join (sound_dir sm) filename) exc ::
      match sounds sm !! name with
      | Some old => [SoundSetVolume old volume]
      | None => []
      end
  end ++ _draw_loading_screen screen splash font index total
      ++ [ClockTick 60].
Proof using screen splash font total.
  clear world. rewrite load_entry_eq. cbn [snd].
  destruct (mixer_Sound be _) as [sound|exc] eqn:Hbe.
  - rewrite (load_sound_ok _ _ _ _ _ Hbe). cbn [fst snd].
    unfold set_volume. cbn [sounds]. by rewrite lookup_insert_eq.
  - rewrite (load_sound_error _ _ _ _ _ Hbe). cbn [fst snd].
    unfold set_volume. cbn [sounds with_missing].
    destruct (sounds sm !! name); [done|].
    rewrite warn_known; [done|]. simpl. set_solver.
Qed.

Lemma load_entry_quiet be index name filename volume sm :
  let trace := (load_entry be screen splash font index total
                           (name, (filename, volume)) sm).2 in
  playbacks trace = [] /\ music_commands trace = [] /\
  missing_warnings trace = [] /\
  warnings trace =
    match mixer_Sound be (os_path_join (sound_dir sm) filename) with
    | error exc =>
        [load_failed name (os_path_join (sound_dir sm) filename) exc]
    | Ok _ => []
    end.
Proof.
  cbv zeta. rewrite load_entry_trace.
  unfold playbacks, music_commands, missing_warnings, warnings,
    _draw_loading_screen.
  destruct (mixer_Sound be _); [|destruct (sounds sm !! name)];
    destruct splash; done.
Qed.

(** Whatever the events and the backend do, the loading loop dispatches no
    playback, sends nothing to the music channel and never logs the "is not
    registered" warning. *)
Lemma for_each_quiet items sm :
  let trace := trace_of (for_each world screen splash font total items sm) in
  playbacks trace = [] /\ music_commands trace = [] /\
  missing_warnings trace = [].
Proof.
  cbv zeta. revert sm.
  induction items as [|[index [name [filename volume]]] rest IH]; intros sm.
  - done.
  - rewrite for_each_cons. destruct (quit_seen _); [done|].
    rewrite trace_of_emit.
    destruct (load_entry_quiet (backend (world index)) index name filename
                volume sm) as (H1 & H2 & H3 & _).
    destruct (IH (load_entry (backend (world index)) screen splash font
                    index total (name, (filename, volume)) sm).1)
      as (IH1 & IH2 & IH3).
    unfold playbacks, music_commands, missing_warnings in *.
    cbn [omap list_omap app]. rewrite !omap_app.
    rewrite H1, H2, H3, IH1, IH2, IH3. done.
Qed.

Lemma load_entries_warnings items sm :
  warnings (load_entries world screen splash font total items sm).2 =
  omap (load_failure world (sound_dir sm)) items.
Proof.
  revert sm.
  induction items as [|[index [name [filename volume]]] rest IH]; intros sm.
  - done.
  - rewrite load_entries_cons. cbv zeta. cbn [snd fst].
    destruct (load_entry_quiet (backend (world index)) index name filename
                volume sm) as (_ & _ & _ & Hw).
    destruct (load_entry_shows screen splash font total
                (backend (world index)) index name filename volume sm)
      as (_ & Hdir & _).
    unfold warnings in *. cbn [omap list_omap]. rewrite omap_app, Hw, IH, Hdir.
    unfold load_failure, answer. cbn [fst snd].
    by destruct (mixer_Sound _ _).
Qed.

End Entries.

Lemma enumerate_names (settings : list Setting) (start : nat) :
  map (fun item : nat * Setting => item.2.1) (enumerate settings start) =
  names settings.
Proof.
  unfold names. rewrite <- (enumerate_snd settings start) at 2.
  by rewrite map_map.
Qed.

Lemma enumerate_covers {A : Type} (l : list A) (start i : nat) :
  (start <= i < start + length l)%nat -> exists x, (i, x) ∈ enumerate l start.
Proof.
  revert start. induction l as [|y l IH]; intros start Hi; simpl in *; [lia|].
  destruct (decide (i = start)) as [->|Hne].
  - exists y. apply list_elem_of_here.
  - destruct (IH (S start)) as [x Hx]; [lia|].
    exists x. by apply list_elem_of_further.
Qed.

Lemma for_each_returned world screen splash font total items sm final trace :
  for_each world screen splash font total items sm = Returned final trace ->
  Forall (fun item : nat * Setting =>
            quit_seen (event_get (world item.1)) = false) items.
Proof.
  revert sm trace.
  induction items as [|[index entry] rest IH]; intros sm trace Hret.
  - constructor.
  - rewrite for_each_cons in Hret.
    destruct (quit_seen (event_get (world index))) eqn:Hq; [discriminate|].
    constructor; [exact Hq|].
    destruct (for_each world screen splash font total rest _) as [s t|s t]
      eqn:Hrest; [|discriminate].
    simpl in Hret. inversion Hret; subst s. by eapply IH.
Qed.

Lemma load_sounds_returned world sm settings screen splash final trace :
  _load_sounds world sm settings screen splash = Returned final trace ->
  final = foldl (attempt world) sm (enumerate settings 1) /\
  trace = [FontNew 24; ClockNew] ++
          (load_entries world screen splash (FontObj 24) (length settings)
                        (enumerate settings 1) sm).2.
Proof.
  unfold _load_sounds. cbv zeta. intros Hret.
  destruct (for_each world screen splash (FontObj 24) (length settings)
              (enumerate settings 1) sm) as [s t|s t] eqn:Hfor;
    [|discriminate].
  pose proof (for_each_returned _ _ _ _ _ _ _ _ _ Hfor) as Hcalm.
  rewrite for_each_calm in Hfor by done.
  simpl in Hret. inversion Hret; subst final trace.
  inversion Hfor; subst s t.
  split; [|done].
  apply (load_entries_shows world screen splash (FontObj 24)
           (length settings) (enumerate settings 1) sm).
Qed.

(** X9: whatever the events and the backend do, and whether it returns or
    exits, the loading sequence dispatches no playback, sends nothing to the
    music channel and logs no "is not registered" warning: the [set_volume]
    that follows a failed load finds the name already marked missing. *)
Theorem loading_is_quiet (world : nat -> Moment) (sm : SoundManager.t)
    (settings : list Setting) (screen : Surface) (splash : option Surface) :
  let trace := trace_of (_load_sounds world sm settings screen splash) in
  playbacks trace = [] /\ music_commands trace = [] /\
  missing_warnings trace = [].
Proof.
  cbv zeta. unfold _load_sounds. cbv zeta. rewrite trace_of_emit.
  destruct (for_each_quiet world screen splash (FontObj 24) (length settings)
              (enumerate settings 1) sm) as (H1 & H2 & H3).
  unfold playbacks, music_commands, missing_warnings in *.
  cbn [omap list_omap app]. done.
Qed.

(** X10: when the loading sequence returns, its log holds exactly one
    "Failed to load sound" record for each manifest entry whose file the
    mixer rejected, in manifest order, and nothing else, whatever the store
    held before. *)
Theorem loading_logs_failures (world : nat -> Moment) (sm final : SoundManager.t)
    (trace : list Effect) (settings : list Setting) (screen : Surface)
    (splash : option Surface) :
  _load_sounds world sm settings screen splash = Returned final trace ->
  warnings trace =
    omap (load_failure world (sound_dir sm)) (enumerate settings 1).
Proof.
  intros Hret. apply load_sounds_returned in Hret as [_ ->].
  unfold warnings. cbn [app omap list_omap].
  apply load_entries_warnings.
Qed.

Lemma loading_logs_failures_witness :
  _load_sounds never_quit fresh sound_settings splash_screen None =
    Returned
      (store_of (_load_sounds never_quit fresh sound_settings
                   splash_screen None))
      (trace_of (_load_sounds never_quit fresh sound_settings
                   splash_screen None)) /\
  warnings (trace_of (_load_sounds never_quit fresh sound_settings
                        splash_screen None))
  = [load_failed "hit" "assets/sound/hit.mp3" "Unable to open file"].
Proof.
  assert (H : _load_sounds never_quit fresh sound_settings splash_screen None =
    Returned
      (store_of (_load_sounds never_quit fresh sound_settings
                   splash_screen None))
      (trace_of (_load_sounds never_quit fresh sound_settings
                   splash_screen None))) by (vm_compute; reflexivity).
  split; [exact H|].
  exact (loading_logs_failures never_quit fresh _ _ sound_settings
           splash_screen None H).
Defined.

#[local] Arguments attempt : simpl never.

(** After [load_sound], the [set_volume] of the same name leaves the store
    alone: the name is registered or already marked missing. *)
Lemma attempt_eq world sm index name filename volume :
  attempt world sm (index, (name, (filename, volume))) =
  (load_sound (backend (world index)) name filename sm).1.
Proof.
  unfold attempt, load_sound, set_volume.
  destruct (mixer_Sound _ _) as [sound|exc]; cbn [fst].
  - destruct (decide _); cbn [sounds with_missing with_sounds];
      by rewrite lookup_insert_eq.
  - cbn [sounds with_missing]. destruct (sounds sm !! name); [done|].
    rewrite warn_known; [done|]. simpl. set_solver.
Qed.

Lemma attempt_sound_dir world sm item :
  sound_dir (attempt world sm item) = sound_dir sm.
Proof.
  destruct item as [index [name [filename volume]]].
  rewrite attempt_eq. apply load_sound_sound_dir.
Qed.

Lemma attempt_frame world sm index name filename volume n :
  n <> name ->
  sounds (attempt world sm (index, (name, (filename, volume)))) !! n
    = sounds sm !! n /\
  (n ∈ _missing_sounds (attempt world sm (index, (name, (filename, volume))))
   <-> n ∈ _missing_sounds sm).
Proof.
  intros Hne. rewrite attempt_eq.
  apply (call_frame (backend (world index)) (load_sound_ name filename) n sm).
  simpl. congruence.
Qed.

Lemma attempts_frame world items sm n :
  n ∉ map (fun item : nat * Setting => item.2.1) items ->
  sounds (foldl (attempt world) sm items) !! n = sounds sm !! n /\
  (n ∈ _missing_sounds (foldl (attempt world) sm items)
   <-> n ∈ _missing_sounds sm).
Proof.
  revert sm.
  induction items as [|[index [name [filename volume]]] rest IH];
    intros sm Hout; [done|].
  simpl in *. apply not_elem_of_cons in Hout as [Hne Hout].
  destruct (IH (attempt world sm (index, (name, (filename, volume)))) Hout)
    as [IH1 IH2].
  destruct (attempt_frame world sm index name filename volume n Hne)
    as [H1 H2].
  split; [by rewrite IH1|by rewrite IH2].
Qed.

Lemma attempts_sound_dir world items sm :
  sound_dir (foldl (attempt world) sm items) = sound_dir sm.
Proof.
  revert sm. induction items as [|item rest IH]; intros sm; [done|].
  simpl. by rewrite IH, attempt_sound_dir.
Qed.

Lemma attempt_settles world sm index name filename volume :
  settled world sm (attempt world sm (index, (name, (filename, volume))))
          (index, (name, (filename, volume))).
Proof.
  unfold settled, answer. cbn [fst snd]. rewrite attempt_eq.
  destruct (mixer_Sound _ _) as [sound|exc] eqn:Hbe.
  - rewrite (load_sound_ok _ _ _ _ _ Hbe). simpl.
    split; [apply lookup_insert_eq|set_solver].
  - rewrite (load_sound_error _ _ _ _ _ Hbe). simpl. split; [done|set_solver].
Qed.

Lemma attempts_settle world items sm item :
  NoDup (map (fun item : nat * Setting => item.2.1) items) ->
  item ∈ items ->
  settled world sm (foldl (attempt world) sm items) item.
Proof.
  revert sm.
  induction items as [|[index [name [filename volume]]] rest IH];
    intros sm Hnodup Hin.
  - by apply not_elem_of_nil in Hin.
  - simpl in Hnodup. apply NoDup_cons in Hnodup as [Hfresh Hnodup].
    apply elem_of_cons in Hin as [->|Hin]; simpl.
    + pose proof (attempt_settles world sm index name filename volume) as Hset.
      destruct (attempts_frame world rest
                  (attempt world sm (index, (name, (filename, volume))))
                  name Hfresh) as [H1 H2].
      unfold settled in *. cbn [fst snd] in *.
      destruct (answer world (sound_dir sm) _).
      * destruct Hset as [Hs Hm]. split; [by rewrite H1|by rewrite H2].
      * destruct Hset as [Hs Hm]. split; [by rewrite H1|by rewrite H2].
    + specialize (IH (attempt world sm (index, (name, (filename, volume))))
                     Hnodup Hin).
      assert (Hne : item.2.1 <> name).
      { intros Heq. apply Hfresh. rewrite <- Heq.
        apply list_elem_of_fmap. by exists item. }
      destruct (attempt_frame world sm index name filename volume
                  item.2.1 Hne) as [H1 _].
      unfold settled, answer in *. rewrite attempt_sound_dir in IH.
      destruct (mixer_Sound _ _); [done|]. by rewrite <- H1.
Qed.

Lemma attempts_sound_on world items sm :
  sound_on (foldl (attempt world) sm items) = sound_on sm.
Proof.
  revert sm.
  induction items as [|[index [name [filename volume]]] rest IH]; intros sm;
    [done|].
  cbn [foldl]. rewrite IH, attempt_eq.
  apply (call_sound_on (backend (world index)) (load_sound_ name filename)).
Qed.

(** X12: when a manifest without repeated names has been loaded, the store
    tells for each entry how its load went: an entry whose file decoded is
    registered under its name with the handle the mixer returned and is not
    marked missing; an entry whose file failed is marked missing and its
    registry slot is as before the loading.  Names outside the manifest, the
    mute flag and the asset directory are as before. *)
Theorem loading_settles_manifest (world : nat -> Moment)
    (sm final : SoundManager.t) (trace : list Effect)
    (settings : list Setting) (screen : Surface) (splash : option Surface)
    (item : nat * Setting) (other : string) :
  _load_sounds world sm settings screen splash = Returned final trace ->
  NoDup (names settings) ->
  (item ∈ enumerate settings 1 -> settled world sm final item) /\
  (other ∉ names settings ->
   sounds final !! other = sounds sm !! other /\
   (other ∈ _missing_sounds final <-> other ∈ _missing_sounds sm)) /\
  sound_on final = sound_on sm /\
  sound_dir final = sound_dir sm.
Proof.
  intros Hret Hnodup. apply load_sounds_returned in Hret as [-> _].
  rewrite <- (enumerate_names settings 1) in *.
  split; [intros Hin; by apply attempts_settle|].
  split; [intros Hout; by apply attempts_frame|].
  split; [apply attempts_sound_on|apply attempts_sound_dir].
Qed.

Lemma loading_settles_manifest_witness :
  _load_sounds never_quit fresh sound_settings splash_screen None =
    Returned
      (store_of (_load_sounds never_quit fresh sound_settings
                   splash_screen None))
      (trace_of (_load_sounds never_quit fresh sound_settings
                   splash_screen None)) /\
  NoDup (names sound_settings) /\
  (2%nat, ("hit", ("hit.mp3", 0 # 1)%Q)) ∈ enumerate sound_settings 1 /\
  settled never_quit fresh
    (store_of (_load_sounds never_quit fresh sound_settings
                 splash_screen None))
    (2%nat, ("hit", ("hit.mp3", 0 # 1)%Q)).
Proof.
  assert (H1 : _load_sounds never_quit fresh sound_settings splash_screen None =
    Returned
      (store_of (_load_sounds never_quit fresh sound_settings
                   splash_screen None))
      (trace_of (_load_sounds never_quit fresh sound_settings
                   splash_screen None))) by (vm_compute; reflexivity).
  assert (H2 : NoDup (names sound_settings))
    by (apply (bool_decide_unpack _); vm_compute; exact I).
  assert (H3 : (2%nat, ("hit", ("hit.mp3", 0 # 1)%Q))
               ∈ enumerate sound_settings 1).
  { unfold sound_settings. simpl.
    apply list_elem_of_further, list_elem_of_here. }
  split; [exact H1|]. split; [exact H2|]. split; [exact H3|].
  exact (proj1 (loading_settles_manifest never_quit fresh _ _ sound_settings
                  splash_screen None (2%nat, ("hit", ("hit.mp3", 0 # 1)%Q))
                  "none" H1 H2) H3).
Defined.

Lemma load_entry_volumes screen splash font total be index name filename
    volume sm :
  volumes (load_entry be screen splash font index total
                      (name, (filename, volume)) sm).2 =
  match mixer_Sound be (os_path_join (sound_dir sm) filename) with
  | Ok sound => [(sound, volume)]
  | error _ =>
      match sounds sm !! name with
      | Some old => [(old, volume)]
      | None => []
      end
  end.
Proof.
  rewrite load_entry_trace. unfold volumes, _draw_loading_screen.
  destruct (mixer_Sound be _); [|destruct (sounds sm !! name)];
    destruct splash; reflexivity.
Qed.

Lemma load_entries_volumes world screen splash font total items sm :
  NoDup (map (fun item : nat * Setting => item.2.1) items) ->
  (forall n, n ∈ map (fun item : nat * Setting => item.2.1) items ->
             sounds sm !! n = None) ->
  volumes (load_entries world screen splash font total items sm).2 =
  omap (loaded_volume world (sound_dir sm)) items.
Proof.
  revert sm.
  induction items as [|[index [name [filename volume]]] rest IH];
    intros sm Hnodup Hnew; [done|].
  cbn [map] in *. apply NoDup_cons in Hnodup as [Hfresh Hnodup].
  rewrite load_entries_cons. cbv zeta. cbn [fst snd].
  destruct (load_entry_shows screen splash font total
              (backend (world index)) index name filename volume sm)
    as (Hst & Hdir & _).
  fold (attempt world sm (index, (name, (filename, volume)))) in Hst.
  unfold volumes in *. cbn [omap list_omap]. rewrite omap_app.
  rewrite IH; [|done|].
  - pose proof (load_entry_volumes screen splash font total
                 (backend (world index)) index name filename volume sm) as Hv.
    unfold volumes in Hv. rewrite Hv, Hdir.
    unfold loaded_volume at 2, answer. cbn [fst snd].
    rewrite (Hnew name) by apply list_elem_of_here.
    by destruct (mixer_Sound _ _).
  - intros n Hn. rewrite Hst.
    assert (Hne : n <> name) by (intros ->; done).
    destruct (attempt_frame world sm index name filename volume n Hne)
      as [-> _].
    apply Hnew. by apply list_elem_of_further.
Qed.

(** X13: when a manifest without repeated names has been loaded into a
    store that held none of them, the volume commands on the trace are
    exactly one per entry whose file decoded, carrying the handle the mixer
    returned and the volume of the manifest, in manifest order; entries whose
    file failed get none. *)
Theorem loading_sets_volumes (world : nat -> Moment)
    (sm final : SoundManager.t) (trace : list Effect)
    (settings : list Setting) (screen : Surface) (splash : option Surface) :
  _load_sounds world sm settings screen splash = Returned final trace ->
  NoDup (names settings) ->
  (forall n, n ∈ names settings -> sounds sm !! n = None) ->
  volumes trace =
    omap (loaded_volume world (sound_dir sm)) (enumerate settings 1).
Proof.
  intros Hret Hnodup Hnew. apply load_sounds_returned in Hret as [_ ->].
  rewrite <- (enumerate_names settings 1) in *.
  unfold volumes. cbn [app omap list_omap].
  by apply load_entries_volumes.
Qed.

Lemma loading_sets_volumes_witness :
  _load_sounds never_quit fresh (take 3 sound_settings) splash_screen None =
    Returned
      (store_of (_load_sounds never_quit fresh (take 3 sound_settings)
                   splash_screen None))
      (trace_of (_load_sounds never_quit fresh (take 3 sound_settings)
                   splash_screen None)) /\
  NoDup (names (take 3 sound_settings)) /\
  (forall n, n ∈ names (take 3 sound_settings) -> sounds fresh !! n = None) /\
  volumes (trace_of (_load_sounds never_quit fresh (take 3 sound_settings)
                       splash_screen None))
  = [ (SoundObj 21, 5 # 100); (SoundObj 23, 2 # 100) ]%Q.
Proof.
  assert (H1 : _load_sounds never_quit fresh (take 3 sound_settings)
                 splash_screen None =
    Returned
      (store_of (_load_sounds never_quit fresh (take 3 sound_settings)
                   splash_screen None))
      (trace_of (_load_sounds never_quit fresh (take 3 sound_settings)
                   splash_screen None))) by (vm_compute; reflexivity).
  assert (H2 : NoDup (names (take 3 sound_settings)))
    by (apply (bool_decide_unpack _); vm_compute; exact I).
  assert (H3 : forall n, n ∈ names (take 3 sound_settings) ->
                         sounds fresh !! n = None)
    by (intros n _; apply lookup_empty).
  split; [exact H1|]. split; [exact H2|]. split; [exact H3|].
  exact (loading_sets_volumes never_quit fresh _ _ (take 3 sound_settings)
           splash_screen None H1 H2 H3).
Defined.

(** ** The splash image and the start of [main] *)

(** X14: [_load_splash_image] returns the scaled image when loading,
    converting and scaling all succeed, and logs nothing then; when one of
    the three raises it returns [None], logs exactly one warning, and does
    not attempt the steps after the one that raised.  The file is always
    asked for first, at the resource path of the splash. *)
Theorem splash_image_or_warning (utils : GameUtils) (platform : Platform)
    (splash_size : Z * Z) :
  let result := _load_splash_image utils platform splash_size in
  let splash_path := resource_path utils "assets/pics/splash.png" in
  head result.2 = Some (ImageLoad splash_path) /\
  (result.1 = None <-> length (logged result.2) = 1%nat) /\
  (is_Some result.1 <-> logged result.2 = []) /\
  (forall scaled, result.1 = Some scaled <->
     exists loaded image,
       image_load platform splash_path = Ok loaded /\
       Surface_convert platform loaded = Ok image /\
       transform_scale platform image splash_size = Ok scaled) /\
  (forall exc, image_load platform splash_path = error exc ->
     result.2 = [ImageLoad splash_path; splash_failed splash_path exc]) /\
  (forall loaded exc,
     image_load platform splash_path = Ok loaded ->
     Surface_convert platform loaded = error exc ->
     result.2 = [ImageLoad splash_path; SurfaceConvert loaded;
                 splash_failed splash_path exc]).
Proof.
  cbv zeta. unfold _load_splash_image.
  destruct (image_load platform _) as [loaded|exc1] eqn:H1.
  - destruct (Surface_convert platform loaded) as [image|exc2] eqn:H2.
    + destruct (transform_scale platform image splash_size)
        as [scaled|exc3] eqn:H3; simpl.
      * split; [done|]. split; [split; discriminate|].
        split; [split; [done|by eauto]|].
        split; [|split; [discriminate|]].
        -- intros s. split.
           ++ intros [= <-]. by exists loaded, image.
           ++ intros (l & i & [= <-] & Hc & Hs). congruence.
        -- intros l e [= <-]. congruence.
      * split; [done|]. split; [done|].
        split; [split; [by intros [? ?]|discriminate]|].
        split; [|split; [discriminate|]].
        -- intros s. split; [discriminate|].
           intros (l & i & [= <-] & Hc & Hs). congruence.
        -- intros l e [= <-]. congruence.
    + simpl. split; [done|]. split; [done|].
      split; [split; [by intros [? ?]|discriminate]|].
      split; [|split; [discriminate|]].
      * intros s. split; [discriminate|].
        intros (l & i & [= <-] & Hc & Hs). congruence.
      * intros l e [= <-] He. congruence.
  - simpl. split; [done|]. split; [done|].
    split; [split; [by intros [? ?]|discriminate]|].
    split; [|split; [by intros exc [= <-]|discriminate]].
    intros s. split; [discriminate|].
    intros (l & i & Hl & _). discriminate.
Qed.

Lemma splash_image_or_warning_witness :
  image_load platform_no_splash
    (resource_path game_utils "assets/pics/splash.png")
    = error "Couldn't open splash.png" /\
  (_load_splash_image game_utils platform_no_splash (200, 200)).2
  = [ ImageLoad "/opt/game/assets/pics/splash.png";
      splash_failed "/opt/game/assets/pics/splash.png"
                    "Couldn't open splash.png" ].
Proof.
  assert (H : image_load platform_no_splash
                (resource_path game_utils "assets/pics/splash.png")
              = error "Couldn't open splash.png") by reflexivity.
  split; [exact H|].
  exact (proj1 (proj2 (proj2 (proj2 (proj2
    (splash_image_or_warning game_utils platform_no_splash (200, 200))))))
    "Couldn't open splash.png" H).
Defined.

(** * When a backend call raises something else *)

(** ** The two layers agree where nothing but [pygame.error] is raised *)

Lemma load_sound_lift be name filename self :
  Raising.load_sound (Raising.lift be) name filename self =
  Raising.Normal (load_sound be name filename self).1
                 (load_sound be name filename self).2.
Proof.
  unfold Raising.load_sound, load_sound. simpl.
  by destruct (mixer_Sound be _).
Qed.

Lemma play_music_lift be file_name loops self :
  Raising.play_music (Raising.lift be) file_name loops self =
  Raising.Normal (play_music be file_name loops self).1
                 (play_music be file_name loops self).2.
Proof.
  unfold Raising.play_music, play_music. simpl.
  destruct (sound_on self); simpl; [|done].
  destruct (os_path_exists be _); simpl; [|done].
  destruct (mixer_music_load be _); simpl; [|done].
  by destruct (mixer_music_play be loops).
Qed.

Lemma load_entry_lift be screen splash font index total entry sm :
  Raising.load_entry (Raising.lift be) screen splash font index total entry sm
  = Raising.Normal
      (load_entry be screen splash font index total entry sm).1
      (load_entry be screen splash font index total entry sm).2.
Proof.
  destruct entry as [name [filename volume]].
  unfold Raising.load_entry. rewrite load_sound_lift, load_entry_eq.
  by destruct (set_volume name volume _).
Qed.

Lemma lift_outcome_emit pre o :
  Raising.lift_outcome (emit pre o) = Raising.emit pre (Raising.lift_outcome o).
Proof. by destruct o. Qed.

Lemma for_each_lift world screen splash font total items sm :
  Raising.for_each (Raising.lift_world world) screen splash font total items sm
  = Raising.lift_outcome (for_each world screen splash font total items sm).
Proof.
  revert sm. induction items as [|[index entry] rest IH]; intros sm; [done|].
  rewrite for_each_cons. cbn [Raising.for_each].
  cbn [Raising.lift_world Raising.event_get Raising.backend].
  destruct (quit_seen _); [done|].
  by rewrite load_entry_lift, IH, lift_outcome_emit.
Qed.

(** With a backend that raises nothing but [pygame.error], the loading
    sequence does what the definitions without the third answer say. *)
Lemma load_sounds_lift world sm settings screen splash :
  Raising._load_sounds (Raising.lift_world world) sm settings screen splash
  = Raising.lift_outcome (_load_sounds world sm settings screen splash).
Proof.
  unfold Raising._load_sounds, _load_sounds. cbv zeta.
  by rewrite for_each_lift, lift_outcome_emit.
Qed.

(** ** C3: what [load_sound] lets through *)

(** The three things [load_sound] can do, one per answer of the mixer. *)
Lemma load_sound_outcomes (be : Raising.Backend) (name filename : string)
    (self : SoundManager.t) :
  Raising.load_sound be name filename self =
  match Raising.mixer_Sound be (os_path_join (sound_dir self) filename) with
  | Raising.Returns sound =>
      Raising.Normal
        (mk (sound_dir self) (<[name := sound]> (sounds self)) (sound_on self)
            (_missing_sounds self ∖ {[name]}))
        [MixerSound (os_path_join (sound_dir self) filename)]
  | Raising.pygame_error exc =>
      Raising.Normal
        (mk (sound_dir self) (sounds self) (sound_on self)
            ({[name]} ∪ _missing_sounds self))
        [MixerSound (os_path_join (sound_dir self) filename);
         load_failed name (os_path_join (sound_dir self) filename) exc]
  | Raising.other_exception class_name exc =>
      Raising.Escaped class_name exc self
        [MixerSound (os_path_join (sound_dir self) filename)]
  end.
Proof.
  unfold Raising.load_sound. cbv zeta.
  destruct (Raising.mixer_Sound be _) as [sound|exc|class_name exc]; [|done..].
  f_equal. simpl.
  destruct (decide (name ∈ _missing_sounds self)) as [Hin|Hout]; [done|].
  unfold with_sounds. f_equal. set_solver.
Qed.

(** C3: [load_sound] does not keep every exception in.  When the mixer
    raises an exception of a class other than [pygame.error], as pygame 2
    does with [FileNotFoundError] for a file that is not there, the handler
    does not catch it: the exception leaves [load_sound], nothing is logged,
    the name is not added to the missing set and the store is as before the
    call. *)
Theorem load_sound_lets_other_exceptions_through (be : Raising.Backend)
    (name filename class_name exc : string) (self : SoundManager.t) :
  Raising.mixer_Sound be (os_path_join (sound_dir self) filename)
    = Raising.other_exception class_name exc ->
  Raising.load_sound be name filename self =
    Raising.Escaped class_name exc self
      [MixerSound (os_path_join (sound_dir self) filename)] /\
  (forall self' trace,
     Raising.load_sound be name filename self <> Raising.Normal self' trace).
Proof.
  intros Hbe. rewrite load_sound_outcomes, Hbe. split; [done|].
  intros self' trace. discriminate.
Qed.

Lemma load_sound_lets_other_exceptions_through_witness :
  Raising.mixer_Sound backend_pygame2_absent
    (os_path_join (sound_dir fresh) "missing.mp3")
    = Raising.other_exception "FileNotFoundError"
        "No file 'assets/sound/missing.mp3' found in working directory" /\
  Raising.load_sound backend_pygame2_absent "ghost" "missing.mp3" fresh =
    Raising.Escaped "FileNotFoundError"
      "No file 'assets/sound/missing.mp3' found in working directory"
      fresh [MixerSound "assets/sound/missing.mp3"].
Proof.
  assert (H : Raising.mixer_Sound backend_pygame2_absent
                (os_path_join (sound_dir fresh) "missing.mp3")
              = Raising.other_exception "FileNotFoundError"
                  "No file 'assets/sound/missing.mp3' found in working directory")
    by reflexivity.
  split; [exact H|].
  exact (proj1 (load_sound_lets_other_exceptions_through
                  backend_pygame2_absent "ghost" "missing.mp3" _ _ fresh H)).
Defined.

(** ** The loading sequence, iteration by iteration *)

Section Script.

Variables (world : nat -> Raising.Moment) (screen : Surface).
Variables (splash : option Surface) (total : nat).

Lemma entry_store_sound_dir sm item :
  sound_dir (Raising.entry_store world sm item) = sound_dir sm.
Proof.
  unfold Raising.entry_store. by destruct (Raising.answer world _ item).
Qed.

Lemma stores_sound_dir items sm :
  sound_dir (foldl (Raising.entry_store world) sm items) = sound_dir sm.
Proof.
  revert sm. induction items as [|item rest IH]; intros sm; [done|].
  simpl. by rewrite IH, entry_store_sound_dir.
Qed.

(** An iteration whose load is answered runs to its end. *)
Lemma load_entry_handled index entry sm :
  Raising.handled (Raising.answer world (sound_dir sm) (index, entry)) = true ->
  Raising.load_entry (Raising.backend (world index)) screen splash (FontObj 24)
                     index total entry sm =
  Raising.Normal (Raising.entry_store world sm (index, entry))
    (tail (Raising.entry_script world screen splash total sm (index, entry))).
Proof.
  destruct entry as [name [filename volume]].
  unfold Raising.load_entry, Raising.entry_store, Raising.entry_script,
    Raising.answer. cbn [fst snd]. rewrite load_sound_outcomes.
  destruct (Raising.mixer_Sound _ _) as [sound|exc|class_name exc];
    [| |discriminate]; intros _.
  - unfold set_volume. cbn [sounds]. rewrite lookup_insert_eq. done.
  - unfold set_volume. cbn [sounds].
    destruct (sounds sm !! name); [done|].
    rewrite warn_known; [done|]. simpl. set_solver.
Qed.

(** An iteration whose load raises something else stops at the load. *)
Lemma load_entry_escapes index entry sm class_name exc :
  Raising.answer world (sound_dir sm) (index, entry)
    = Raising.other_exception class_name exc ->
  Raising.load_entry (Raising.backend (world index)) screen splash (FontObj 24)
                     index total entry sm =
  Raising.Escaped class_name exc sm
    [MixerSound (Raising.path_of (sound_dir sm) entry)].
Proof.
  destruct entry as [name [filename volume]].
  unfold Raising.load_entry, Raising.answer, Raising.path_of. cbn [fst snd].
  rewrite load_sound_outcomes. by intros ->.
Qed.

Lemma emit_emit pre1 pre2 o :
  Raising.emit pre1 (Raising.emit pre2 o) = Raising.emit (pre1 ++ pre2) o.
Proof. destruct o; simpl; by rewrite app_assoc. Qed.

Lemma emit_nil o : Raising.emit [] o = o.
Proof. by destruct o. Qed.

(** As long as its iterations are undisturbed the loop does what the script
    says, and goes on from the store the script leaves. *)
Lemma for_each_script pre rest sm :
  Forall (Raising.undisturbed world (sound_dir sm)) pre ->
  Raising.for_each world screen splash (FontObj 24) total (pre ++ rest) sm =
  Raising.emit (Raising.loading_script world screen splash total pre sm)
    (Raising.for_each world screen splash (FontObj 24) total rest
       (foldl (Raising.entry_store world) sm pre)).
Proof.
  intros Hpre. revert sm Hpre.
  induction pre as [|[index entry] pre IH]; intros sm Hpre.
  - simpl. by rewrite emit_nil.
  - apply Forall_cons in Hpre as [[Hq Hh] Hpre]. cbn [fst] in Hq.
    cbn [app Raising.for_each foldl Raising.loading_script].
    destruct (quit_seen (Raising.event_get (world index))) eqn:Hquit.
    { apply quit_seen_iff in Hquit. done. }
    rewrite (load_entry_handled index entry sm Hh).
    rewrite IH by (by rewrite entry_store_sound_dir).
    rewrite emit_emit. reflexivity.
Qed.

(** A loop that returns has met no QUIT and no exception. *)
Lemma for_each_returned_undisturbed items sm final trace :
  Raising.for_each world screen splash (FontObj 24) total items sm
    = Raising.Returned final trace ->
  Forall (Raising.undisturbed world (sound_dir sm)) items.
Proof.
  revert sm trace.
  induction items as [|[index entry] rest IH]; intros sm trace Hret;
    [constructor|].
  cbn [Raising.for_each] in Hret.
  destruct (quit_seen (Raising.event_get (world index))) eqn:Hquit;
    [discriminate|].
  destruct (Raising.handled
              (Raising.answer world (sound_dir sm) (index, entry))) eqn:Hh.
  - rewrite (load_entry_handled index entry sm Hh) in Hret.
    destruct (Raising.for_each world screen splash (FontObj 24) total rest _)
      as [s t|s t|c e s t] eqn:Hrest; try discriminate.
    simpl in Hret. inversion Hret; subst s.
    apply IH in Hrest. rewrite entry_store_sound_dir in Hrest.
    constructor; [|done]. split; [|done]. cbn [fst].
    intros Hin. apply quit_seen_iff in Hin. congruence.
  - destruct (Raising.answer world (sound_dir sm) (index, entry))
      as [sound|exc|class_name exc] eqn:Ha; try discriminate.
    rewrite (load_entry_escapes index entry sm _ _ Ha) in Hret. discriminate.
Qed.

(** What a script shows. *)
Lemma script_shows items sm :
  loads (Raising.loading_script world screen splash total items sm) =
    map (fun item : nat * Setting =>
           Raising.path_of (sound_dir sm) item.2) items /\
  frames (Raising.loading_script world screen splash total items sm) =
    map (fun item : nat * Setting => loading_text item.1 total) items.
Proof.
  revert sm. induction items as [|[index [name [filename volume]]] rest IH];
    intros sm; [done|].
  destruct (IH (Raising.entry_store world sm
                  (index, (name, (filename, volume))))) as [IH1 IH2].
  rewrite entry_store_sound_dir in IH1.
  cbn [Raising.loading_script map].
  unfold loads, frames in *. rewrite !omap_app, IH1, IH2.
  unfold Raising.entry_script, Raising.path_of. cbn [fst snd].
  destruct (Raising.answer world _ _); [|destruct (sounds sm !! name)|];
    destruct splash; done.
Qed.

End Script.

Lemma paths_listed (dir : string) (settings : list Setting) (start : nat) :
  map (fun item : nat * Setting => Raising.path_of dir item.2)
      (enumerate settings start) =
  map (Raising.path_of dir) settings.
Proof.
  rewrite <- (enumerate_snd settings start) at 2. by rewrite map_map.
Qed.

(** ** C5: an exception ends the loading sequence *)

(** C5: the loading sequence does not attempt every entry when [load_sound]
    lets an exception through.  If the iterations before some entry are
    undisturbed, no QUIT is pending at that entry and the mixer answers its
    load with an exception of a class other than [pygame.error], then
    [_load_sounds] neither returns nor exits: the exception leaves it right
    after that load.  The entries before have been loaded, given their volume
    and drawn; for the entry itself no volume is set and no frame drawn, and
    no later entry is attempted. *)
Theorem other_exception_stops_loading (world : nat -> Raising.Moment)
    (sm : SoundManager.t) (before after : list Setting) (entry : Setting)
    (screen : Surface) (splash : option Surface) (class_name exc : string) :
  Forall (Raising.undisturbed world (sound_dir sm)) (enumerate before 1) ->
  QUIT ∉ Raising.event_get (world (S (length before))) ->
  Raising.answer world (sound_dir sm) (S (length before), entry)
    = Raising.other_exception class_name exc ->
  let settings := before ++ entry :: after in
  let N := length settings in
  let trace :=
    [FontNew 24; ClockNew] ++
    Raising.loading_script world screen splash N (enumerate before 1) sm ++
    [EventGet; MixerSound (Raising.path_of (sound_dir sm) entry)] in
  Raising._load_sounds world sm settings screen splash =
    Raising.Raised class_name exc
      (foldl (Raising.entry_store world) sm (enumerate before 1)) trace /\
  loads trace =
    map (Raising.path_of (sound_dir sm)) before
    ++ [Raising.path_of (sound_dir sm) entry] /\
  frames trace = map (fun k => loading_text k N) (seq 1 (length before)).
Proof.
  intros Hpre Hq Hans settings N trace. subst settings N trace.
  split.
  - unfold Raising._load_sounds. cbv zeta.
    rewrite enumerate_app. cbn [enumerate].
    rewrite for_each_script by exact Hpre.
    cbn [Raising.for_each Nat.add].
    destruct (quit_seen (Raising.event_get (world (S (length before)))))
      eqn:Hquit.
    { apply quit_seen_iff in Hquit. done. }
    rewrite (load_entry_escapes world screen splash _ (S (length before))
               entry _ class_name exc)
      by (by rewrite stores_sound_dir).
    rewrite stores_sound_dir. reflexivity.
  - destruct (script_shows world screen splash
                (length (before ++ entry :: after)) (enumerate before 1) sm)
      as [Hl Hf].
    unfold loads, frames in *. cbn [app omap list_omap].
    rewrite !omap_app, Hl, Hf. cbn [omap list_omap].
    split; [by rewrite paths_listed|].
    by rewrite app_nil_r, frames_numbered.
Qed.

Lemma other_exception_stops_loading_witness :
  Forall (Raising.undisturbed second_file_absent (sound_dir fresh))
         (enumerate (take 1 sound_settings) 1) /\
  (QUIT ∉ Raising.event_get
            (second_file_absent (S (length (take 1 sound_settings))))) /\
  Raising.answer second_file_absent (sound_dir fresh)
    (S (length (take 1 sound_settings)), ("hit", ("hit.mp3", 0 # 1)%Q))
    = Raising.other_exception "FileNotFoundError"
        "No file 'assets/sound/hit.mp3' found in working directory" /\
  Raising._load_sounds second_file_absent fresh sound_settings
                       splash_screen None =
    Raising.Raised "FileNotFoundError"
      "No file 'assets/sound/hit.mp3' found in working directory"
      (foldl (Raising.entry_store second_file_absent) fresh
             (enumerate (take 1 sound_settings) 1))
      [ FontNew 24; ClockNew;
        EventGet; MixerSound "assets/sound/jump.mp3";
        SoundSetVolume (SoundObj 21) (5 # 100);
        SurfaceFill (0, 0, 0);
        FontRender (FontObj 24) "Loading 1/16" (255, 255, 255);
        TextBlit "Loading 1/16" (100, 170); DisplayFlip; ClockTick 60;
        EventGet; MixerSound "assets/sound/hit.mp3" ].
Proof.
  assert (H1 : Forall (Raising.undisturbed second_file_absent
                         (sound_dir fresh))
                      (enumerate (take 1 sound_settings) 1)).
  { constructor; [|constructor].
    split; [apply not_elem_of_nil|reflexivity]. }
  assert (H2 : QUIT ∉ Raising.event_get
                 (second_file_absent (S (length (take 1 sound_settings)))))
    by apply not_elem_of_nil.
  assert (H3 : Raising.answer second_file_absent (sound_dir fresh)
                 (S (length (take 1 sound_settings)),
                  ("hit", ("hit.mp3", 0 # 1)%Q))
               = Raising.other_exception "FileNotFoundError"
                   "No file 'assets/sound/hit.mp3' found in working directory")
    by reflexivity.
  split; [exact H1|]. split; [exact H2|]. split; [exact H3|].
  exact (proj1 (other_exception_stops_loading second_file_absent fresh
                  (take 1 sound_settings) (drop 2 sound_settings)
                  ("hit", ("hit.mp3", 0 # 1)%Q) splash_screen None _ _
                  H1 H2 H3)).
Defined.

(** ** The loading sequence when nothing disturbs it *)

(** X17: when no iteration finds a QUIT and the mixer answers every load
    with a handle or with [pygame.error], [_load_sounds] returns and its
    trace is, command for command, the font and the clock followed for each
    manifest entry in order by: the event drain, the load, then the volume
    set on the new handle (or, after a failed load, the failure record and
    the volume on a handle an earlier load had registered, if any), then the
    background, the text "Loading k/N" rendered, the same text blitted at
    the bottom centre, the flip and the tick. *)
Theorem loading_follows_script (world : nat -> Raising.Moment)
    (sm : SoundManager.t) (settings : list Setting) (screen : Surface)
    (splash : option Surface) :
  Forall (Raising.undisturbed world (sound_dir sm)) (enumerate settings 1) ->
  Raising._load_sounds world sm settings screen splash =
    Raising.Returned
      (foldl (Raising.entry_store world) sm (enumerate settings 1))
      ([FontNew 24; ClockNew] ++
       Raising.loading_script world screen splash (length settings)
                              (enumerate settings 1) sm).
Proof.
  intros Hall. unfold Raising._load_sounds. cbv zeta.
  rewrite <- (app_nil_r (enumerate settings 1)) at 1.
  rewrite for_each_script by exact Hall.
  cbn [Raising.for_each Raising.emit]. by rewrite app_nil_r.
Qed.

Lemma loading_follows_script_witness :
  Forall (Raising.undisturbed (Raising.lift_world never_quit)
            (sound_dir fresh))
         (enumerate (take 2 sound_settings) 1) /\
  Raising._load_sounds (Raising.lift_world never_quit) fresh
                       (take 2 sound_settings) splash_screen None =
    Raising.Returned
      (foldl (Raising.entry_store (Raising.lift_world never_quit)) fresh
             (enumerate (take 2 sound_settings) 1))
      [ FontNew 24; ClockNew;
        EventGet; MixerSound "assets/sound/jump.mp3";
        SoundSetVolume (SoundObj 21) (5 # 100);
        SurfaceFill (0, 0, 0);
        FontRender (FontObj 24) "Loading 1/2" (255, 255, 255);
        TextBlit "Loading 1/2" (100, 170); DisplayFlip; ClockTick 60;
        EventGet; MixerSound "assets/sound/hit.mp3";
        load_failed "hit" "assets/sound/hit.mp3" "Unable to open file";
        SurfaceFill (0, 0, 0);
        FontRender (FontObj 24) "Loading 2/2" (255, 255, 255);
        TextBlit "Loading 2/2" (100, 170); DisplayFlip; ClockTick 60 ].
Proof.
  assert (H : Forall (Raising.undisturbed (Raising.lift_world never_quit)
                        (sound_dir fresh))
                     (enumerate (take 2 sound_settings) 1)).
  { repeat constructor; apply not_elem_of_nil. }
  split; [exact H|].
  exact (loading_follows_script (Raising.lift_world never_quit) fresh
           (take 2 sound_settings) splash_screen None H).
Defined.

(** X11: [_load_sounds] returns to its caller exactly when every iteration
    is undisturbed: it finds no QUIT among the events it drains, wherever in
    the drained list, and the mixer answers its load with a handle or with
    [pygame.error].  Otherwise it exits or an exception leaves it. *)
Theorem loading_returns_iff_undisturbed (world : nat -> Raising.Moment)
    (sm : SoundManager.t) (settings : list Setting) (screen : Surface)
    (splash : option Surface) :
  (exists final trace,
     Raising._load_sounds world sm settings screen splash
     = Raising.Returned final trace) <->
  Forall (Raising.undisturbed world (sound_dir sm)) (enumerate settings 1).
Proof.
  split.
  - intros (final & trace & Hret).
    unfold Raising._load_sounds in Hret. cbv zeta in Hret.
    destruct (Raising.for_each world screen splash (FontObj 24)
                (length settings) (enumerate settings 1) sm)
      as [s t|s t|c e s t] eqn:Hfor; try discriminate.
    by eapply for_each_returned_undisturbed.
  - intros Hall. eexists _, _.
    unfold Raising._load_sounds. cbv zeta.
    rewrite <- (app_nil_r (enumerate settings 1)) at 1.
    rewrite for_each_script by exact Hall. reflexivity.
Qed.

Lemma loading_returns_iff_undisturbed_witness :
  Forall (Raising.undisturbed (Raising.lift_world never_quit)
            (sound_dir fresh))
         (enumerate (take 2 sound_settings) 1) /\
  (exists final trace,
     Raising._load_sounds (Raising.lift_world never_quit) fresh
                          (take 2 sound_settings) splash_screen None
     = Raising.Returned final trace).
Proof.
  assert (H : Forall (Raising.undisturbed (Raising.lift_world never_quit)
                        (sound_dir fresh))
                     (enumerate (take 2 sound_settings) 1)).
  { repeat constructor; apply not_elem_of_nil. }
  split; [exact H|].
  exact (proj2 (loading_returns_iff_undisturbed (Raising.lift_world never_quit)
                  fresh (take 2 sound_settings) splash_screen None) H).
Defined.

(** ** C6: background music *)

(** Over a history that never loads the name successfully, the warning for
    the name is logged at most once. *)
Lemma warned_at_most_once history name self :
  never_reloaded name history self = true ->
  (times_warned name (run history self).2 <= 1)%nat.
Proof.
  revert self. induction history as [|[be c] rest IH]; intros self Hnever.
  - unfold times_warned. simpl. lia.
  - simpl in Hnever. apply andb_prop in Hnever as [Hc Hrest].
    rewrite run_cons. cbn [snd]. rewrite times_warned_app.
    destruct (call_times_warned be c name self) as [H0|(H1 & _ & Hin)].
    + rewrite H0. by apply IH.
    + rewrite H1, marked_never_warned by done. lia.
Qed.

Lemma only_stop_music_stops be c self :
  MusicStop ∈ (call be c self).2 -> c = stop_music_.
Proof.
  destruct c as [n f|n|n v| |f l| | |]; simpl call; try done;
    unfold_call; simpl; split_call; set_solver.
Qed.

(** C6, as amended: [play_music] does nothing when the store is muted.
    With sound on and no file at the resolved path it starts no playback
    and logs the "is not registered" warning for the file name unless the
    name is already in the missing set; over any history of store calls
    that holds no successful [load_sound] under that name the warning is
    therefore logged at most once.  With sound on and the file there, the
    store is left alone; a [pygame.error] raised by the load or by the play
    is caught and logged and the call returns, while an exception of another
    class leaves the call.  The default loop count is -1, the backend's
    "repeat until stopped", and only [stop_music] ever sends the stop. *)
Theorem play_music_behaviour (be : Raising.Backend) (file_name : string)
    (loops : Z) (self : SoundManager.t) (history : list (Backend * Call))
    (be' : Backend) (c : Call) :
  let path := os_path_join (sound_dir self) file_name in
  (sound_on self = false ->
   Raising.play_music be file_name loops self = Raising.Normal self []) /\
  (sound_on self = true -> Raising.os_path_exists be path = false ->
   Raising.play_music be file_name loops self =
     if decide (file_name ∈ _missing_sounds self)
     then Raising.Normal self []
     else Raising.Normal
            (with_missing ({[file_name]} ∪ _missing_sounds self) self)
            [not_registered file_name]) /\
  (never_reloaded file_name history self = true ->
   (times_warned file_name (run history self).2 <= 1)%nat) /\
  (sound_on self = true -> Raising.os_path_exists be path = true ->
   Raising.play_music be file_name loops self =
     match Raising.mixer_music_load be path with
     | Raising.Returns _ =>
         match Raising.mixer_music_play be loops with
         | Raising.Returns _ =>
             Raising.Normal self [MusicLoad path; MusicPlay loops]
         | Raising.pygame_error exc =>
             Raising.Normal self [MusicLoad path; MusicPlay loops;
                                  music_failed file_name path exc]
         | Raising.other_exception class_name exc =>
             Raising.Escaped class_name exc self
                             [MusicLoad path; MusicPlay loops]
         end
     | Raising.pygame_error exc =>
         Raising.Normal self [MusicLoad path; music_failed file_name path exc]
     | Raising.other_exception class_name exc =>
         Raising.Escaped class_name exc self [MusicLoad path]
     end) /\
  (sound_on self = true -> Raising.os_path_exists be path = true ->
   Raising.mixer_music_load be path = Raising.Returns tt ->
   Raising.mixer_music_play be loops_default = Raising.Returns tt ->
   Raising.play_music be file_name loops_default self =
     Raising.Normal self [MusicLoad path; MusicPlay (-1)]) /\
  (MusicStop ∈ (call be' c self).2 -> c = stop_music_).
Proof.
  cbv zeta. repeat split.
  - intros Hoff. unfold Raising.play_music. by rewrite Hoff.
  - intros Hon Hex. unfold Raising.play_music, _warn_missing_sound.
    rewrite Hon, Hex. simpl.
    by destruct (decide (file_name ∈ _missing_sounds self)).
  - apply warned_at_most_once.
  - intros Hon Hex. unfold Raising.play_music. rewrite Hon, Hex. simpl.
    destruct (Raising.mixer_music_load be _); [|done..].
    by destruct (Raising.mixer_music_play be loops).
  - intros Hon Hex Hload Hplay. unfold Raising.play_music.
    rewrite Hon, Hex. simpl. by rewrite Hload, Hplay.
  - apply only_stop_music_stops.
Qed.

Lemma play_music_behaviour_witness :
  sound_on muted_with_jump = false /\
  Raising.play_music (Raising.lift backend_ok) "bgm.mp3" loops_default
                     muted_with_jump
    = Raising.Normal muted_with_jump [] /\
  sound_on fresh = true /\
  Raising.os_path_exists backend_pygame2_absent
    (os_path_join (sound_dir fresh) "bgm.mp3") = false /\
  Raising.play_music backend_pygame2_absent "bgm.mp3" loops_default fresh
    = Raising.Normal (with_missing {[ "bgm.mp3" ]} fresh)
                     [not_registered "bgm.mp3"] /\
  never_reloaded "ghost" ghost_requests fresh = true /\
  (times_warned "ghost" (run ghost_requests fresh).2 <= 1)%nat /\
  Raising.os_path_exists (Raising.lift backend_music_broken)
    (os_path_join (sound_dir fresh) "bgm.mp3") = true /\
  Raising.play_music (Raising.lift backend_music_broken) "bgm.mp3"
                     loops_default fresh
    = Raising.Normal fresh
        [ MusicLoad "assets/sound/bgm.mp3"; MusicPlay (-1);
          music_failed "bgm.mp3" "assets/sound/bgm.mp3"
                       "mixer not initialized" ] /\
  Raising.play_music backend_loops_overflow "bgm.mp3" (2 ^ 64) fresh
    = Raising.Escaped "OverflowError"
        "Python int too large to convert to C int" fresh
        [ MusicLoad "assets/sound/bgm.mp3"; MusicPlay (2 ^ 64) ].
Proof.
  pose proof (play_music_behaviour (Raising.lift backend_ok) "bgm.mp3"
                loops_default muted_with_jump [] backend_ok stop_music_)
    as (Hmuted & _).
  pose proof (play_music_behaviour backend_pygame2_absent "bgm.mp3"
                loops_default fresh ghost_requests backend_ok stop_music_)
    as (_ & Habsent & _).
  pose proof (play_music_behaviour backend_pygame2_absent "ghost"
                loops_default fresh ghost_requests backend_ok stop_music_)
    as (_ & _ & Honce & _).
  pose proof (play_music_behaviour (Raising.lift backend_music_broken)
                "bgm.mp3" loops_default fresh [] backend_ok stop_music_)
    as (_ & _ & _ & Hbroken & _).
  pose proof (play_music_behaviour backend_loops_overflow "bgm.mp3" (2 ^ 64)
                fresh [] backend_ok stop_music_)
    as (_ & _ & _ & Hover & _).
  assert (Hnever : never_reloaded "ghost" ghost_requests fresh = true)
    by (vm_compute; reflexivity).
  split; [reflexivity|]. split; [exact (Hmuted eq_refl)|].
  split; [reflexivity|]. split; [reflexivity|].
  split.
  { etransitivity; [exact (Habsent eq_refl eq_refl)|].
    vm_compute. reflexivity. }
  split; [exact Hnever|]. split; [exact (Honce Hnever)|].
  split; [reflexivity|]. split; [exact (Hbroken eq_refl eq_refl)|].
  exact (Hover eq_refl eq_refl).
Defined.

(** C6 as stated fails: with sound on, a music file that is not there is
    asked for, warned about, then a sound is loaded under the same name,
    and the next request for the absent music file warns a second time. *)
Lemma play_music_warns_again_after_load :
  sound_on fresh = true /\
  os_path_exists backend_absent (os_path_join (sound_dir fresh) "theme")
    = false /\
  times_warned "theme" (run theme_reloaded fresh).2 = 2%nat /\
  ~ (times_warned "theme" (run theme_reloaded fresh).2 <= 1)%nat.
Proof.
  split; [reflexivity|]. split; [reflexivity|].
  assert (H : times_warned "theme" (run theme_reloaded fresh).2 = 2%nat)
    by (vm_compute; reflexivity).
  split; [exact H|]. rewrite H. lia.
Qed.

(** ** The start of [main] *)

Lemma windows_core trace : windows (map Core trace) = [].
Proof. induction trace as [|e trace IH]; [done|]. by destruct e. Qed.

Lemma windows_app t1 t2 : windows (t1 ++ t2) = windows t1 ++ windows t2.
Proof. apply omap_app. Qed.


(** Asking for the splash image opens no window and paints nothing. *)
Lemma splash_trace_plain utils platform splash_size :
  match Raising._load_splash_image utils platform splash_size with
  | Raising.Got _ trace | Raising.Lost _ _ trace =>
      windows trace = [] /\ backgrounds trace = []
  end.
Proof.
  unfold Raising._load_splash_image.
  destruct (Raising.image_load platform _) as [loaded| |]; [|done..].
  destruct (Raising.Surface_convert platform loaded) as [image| |]; [|done..].
  by destruct (Raising.transform_scale platform image splash_size).
Qed.


Lemma for_each_exit_tail world screen splash font total items sm final trace :
  Raising.for_each world screen splash font total items sm
    = Raising.SystemExit final trace ->
  exists pre, trace = pre ++ [EventGet; PygameQuit; SysExit].
Proof.
  revert sm trace.
  induction items as [|[index entry] rest IH]; intros sm trace Hex;
    [discriminate|].
  cbn [Raising.for_each] in Hex.
  destruct (quit_seen (Raising.event_get (world index))).
  - inversion Hex. by exists [].
  - destruct (Raising.load_entry _ _ _ _ _ _ _ sm) as [sm' t|c e sm' t];
      [|discriminate].
    destruct (Raising.for_each world screen splash font total rest sm')
      as [s u|s u|c e s u] eqn:Hrest; try discriminate.
    simpl in Hex. inversion Hex; subst.
    destruct (IH _ _ Hrest) as [pre ->].
    exists (EventGet :: t ++ pre). simpl. by rewrite <- app_assoc.
Qed.




Lemma entry_store_sound_on world sm item :
  sound_on (Raising.entry_store world sm item) = sound_on sm.
Proof.
  unfold Raising.entry_store. by destruct (Raising.answer world _ item).
Qed.

Lemma stores_sound_on world items sm :
  sound_on (foldl (Raising.entry_store world) sm items) = sound_on sm.
Proof.
  revert sm. induction items as [|item rest IH]; intros sm; [done|].
  simpl. by rewrite IH, entry_store_sound_on.
Qed.

Lemma load_sounds_returned_raising world sm settings screen splash final
    trace :
  Raising._load_sounds world sm settings screen splash
    = Raising.Returned final trace ->
  Forall (Raising.undisturbed world (sound_dir sm)) (enumerate settings 1) /\
  final = foldl (Raising.entry_store world) sm (enumerate settings 1).
Proof.
  unfold Raising._load_sounds. cbv zeta. intros Hret.
  destruct (Raising.for_each world screen splash (FontObj 24)
              (length settings) (enumerate settings 1) sm)
    as [s t|s t|c e s t] eqn:Hfor; try discriminate.
  simpl in Hret. inversion Hret; subst final trace.
  pose proof (for_each_returned_undisturbed _ _ _ _ _ _ _ _ Hfor) as Hall.
  split; [exact Hall|].
  pose proof (for_each_script world screen splash (length settings)
                (enumerate settings 1) [] sm Hall) as Hs.
  rewrite app_nil_r, Hfor in Hs. simpl in Hs. by inversion Hs.
Qed.

Lemma load_sounds_returns_raising world sm settings screen splash :
  Forall (Raising.undisturbed world (sound_dir sm)) (enumerate settings 1) ->
  exists trace,
    Raising._load_sounds world sm settings screen splash =
    Raising.Returned
      (foldl (Raising.entry_store world) sm (enumerate settings 1)) trace.
Proof.
  intros Hall. unfold Raising._load_sounds. cbv zeta.
  pose proof (for_each_script world screen splash (length settings)
                (enumerate settings 1) [] sm Hall) as Hs.
  rewrite app_nil_r in Hs. rewrite Hs. simpl. eauto.
Qed.

Lemma load_sounds_exit_tail world sm settings screen splash final trace :
  Raising._load_sounds world sm settings screen splash
    = Raising.SystemExit final trace ->
  (exists pre, trace = pre ++ [EventGet; PygameQuit; SysExit]) /\
  ~ Forall (Raising.undisturbed world (sound_dir sm)) (enumerate settings 1).
Proof.
  intros Hex. split.
  - unfold Raising._load_sounds in Hex. cbv zeta in Hex.
    destruct (Raising.for_each world screen splash (FontObj 24)
                (length settings) (enumerate settings 1) sm)
      as [s t|s t|c e s t] eqn:Hfor; try discriminate.
    simpl in Hex. inversion Hex; subst.
    destruct (for_each_exit_tail _ _ _ _ _ _ _ _ _ Hfor) as [pre ->].
    by exists (FontNew 24 :: ClockNew :: pre).
  - intros Hall.
    destruct (load_sounds_returns_raising world sm settings screen splash
                Hall) as [t Hret].
    congruence.
Qed.

(** Counts the windows of a start-up trace, given that asking for the
    splash image opened none. *)
Ltac count_windows Hw :=
  unfold windows in Hw |- *; cbn [omap list_omap];
  rewrite ?omap_app, ?Hw; cbn [omap list_omap app];
  repeat match goal with
    | |- context [omap ?f (map Core ?t)] =>
        change (omap f (map Core t)) with (windows (map Core t));
        rewrite (windows_core t)
    end;
  try reflexivity.

(** X15: [main] opens the game window exactly when nothing disturbs the
    start-up.  If it reaches the first scene, it has opened the splash window
    and then the game window, every loading iteration was undisturbed (no
    QUIT, each load answered with a handle or [pygame.error]), and the store
    it hands on sits on the asset directory with sound on.  If it exits, the
    splash window is the only one it opened, the trace ends in
    [pygame.quit()] and [sys.exit()], and some iteration was disturbed.  If
    an exception ends it, the splash window is again the only one.  And when
    the splash image call lets no exception through and every iteration is
    undisturbed, it does reach the first scene. *)
Theorem game_window_only_after_loading (utils : GameUtils)
    (platform : Raising.Platform) (world : nat -> Raising.Moment) :
  let dir := Raising.Path_str platform (resource_path utils "assets/sound") in
  let size := (SCREEN_WIDTH utils, SCREEN_HEIGHT utils) in
  (forall sm screen trace,
     Raising.main utils platform world = Raising.SceneStart sm screen trace ->
     windows trace = [(200, 200); size] /\
     screen = Raising.display_set_mode platform size /\
     sound_dir sm = dir /\ sound_on sm = true /\
     Forall (Raising.undisturbed world dir) (enumerate sound_settings 1)) /\
  (forall trace,
     Raising.main utils platform world = Raising.Exited trace ->
     windows trace = [(200, 200)] /\
     (exists pre, trace = pre ++ [Core PygameQuit; Core SysExit]) /\
     ~ Forall (Raising.undisturbed world dir) (enumerate sound_settings 1)) /\
  (forall class_name exc trace,
     Raising.main utils platform world = Raising.Crashed class_name exc trace ->
     windows trace = [(200, 200)]) /\
  (forall image image_trace,
     Raising._load_splash_image utils platform (200, 200)
       = Raising.Got image image_trace ->
     Forall (Raising.undisturbed world dir) (enumerate sound_settings 1) ->
     exists sm trace,
       Raising.main utils platform world =
       Raising.SceneStart sm (Raising.display_set_mode platform size) trace).
Proof.
  cbv zeta.
  pose proof (splash_trace_plain utils platform (200, 200)) as Hplain.
  unfold Raising.main. cbv zeta. generalize sound_settings. intros settings.
  set (sm0 := __init__ (Raising.Path_str platform
                          (resource_path utils "assets/sound"))).
  destruct (Raising._load_splash_image utils platform (200, 200))
    as [img itr|c0 e0 itr]; destruct Hplain as [Hw _].
  - destruct (Raising._load_sounds world sm0 settings
                (Raising.display_set_mode platform (200, 200)) img)
      as [s t|s t|c e s t] eqn:Hload.
    + destruct (load_sounds_returned_raising _ _ _ _ _ _ _ Hload)
        as [Hall ->].
      split; [|split; [discriminate|split; [discriminate|]]].
      * intros sm screen trace Heq. injection Heq as <- <- <-.
        split.
        { count_windows Hw. }
        split; [done|]. split; [by rewrite stores_sound_dir|].
        split; [by rewrite stores_sound_on|exact Hall].
      * intros image image_trace _ _. eauto.
    + destruct (load_sounds_exit_tail _ _ _ _ _ _ _ Hload)
        as [[pre ->] Hnot].
      split; [discriminate|]. split; [|split; [discriminate|]].
      * intros trace Heq. injection Heq as <-. split.
        { count_windows Hw. }
        split; [|exact Hnot].
        exists (Raising.opening (200, 200) ++ itr ++
                map Core match img with
                         | None => [SurfaceFill (0, 0, 0); DisplayFlip]
                         | Some image => [SurfaceBlit image (0, 0); DisplayFlip]
                         end ++ map Core (pre ++ [EventGet])).
        rewrite !map_app. cbn [map]. by rewrite <- !app_assoc.
      * intros image image_trace _ Hall. by apply Hnot in Hall.
    + split; [discriminate|]. split; [discriminate|]. split.
      * intros class_name exc trace Heq. injection Heq as <- <- <-.
        count_windows Hw.
      * intros image image_trace _ Hall.
        destruct (load_sounds_returns_raising world sm0 settings
                    (Raising.display_set_mode platform (200, 200)) img Hall)
          as [t' Hret].
        congruence.
  - split; [discriminate|]. split; [discriminate|]. split; [|discriminate].
    intros class_name exc trace Heq. injection Heq as <- <- <-.
    count_windows Hw.
Qed.

Lemma game_window_only_after_loading_witness :
  Raising._load_splash_image game_utils platform_raising_ok (200, 200)
    = Raising.Got (Some {| get_width := 200; get_height := 200 |})
        [ ImageLoad "/opt/game/assets/pics/splash.png";
          SurfaceConvert {| get_width := 640; get_height := 480 |};
          TransformScale {| get_width := 640; get_height := 480 |}
                         (200, 200) ] /\
  Forall (Raising.undisturbed (Raising.lift_world never_quit)
            (Raising.Path_str platform_raising_ok
               (resource_path game_utils "assets/sound")))
         (enumerate sound_settings 1) /\
  windows (Raising.start_trace
             (Raising.main game_utils platform_raising_ok
                           (Raising.lift_world never_quit)))
    = [(200, 200); (800, 600)].
Proof.
  assert (H1 : Raising._load_splash_image game_utils platform_raising_ok
                 (200, 200)
               = Raising.Got (Some {| get_width := 200; get_height := 200 |})
                   [ ImageLoad "/opt/game/assets/pics/splash.png";
                     SurfaceConvert {| get_width := 640; get_height := 480 |};
                     TransformScale {| get_width := 640; get_height := 480 |}
                                    (200, 200) ]) by reflexivity.
  assert (H2 : Forall (Raising.undisturbed (Raising.lift_world never_quit)
                         (Raising.Path_str platform_raising_ok
                            (resource_path game_utils "assets/sound")))
                      (enumerate sound_settings 1)).
  { repeat (constructor;
            [split; [intros Hin; apply quit_seen_iff in Hin; discriminate
                    |reflexivity]|]).
    constructor. }
  split; [exact H1|]. split; [exact H2|].
  destruct (game_window_only_after_loading game_utils platform_raising_ok
              (Raising.lift_world never_quit))
    as (Hscene & _ & _ & Hreach).
  destruct (Hreach _ _ H1 H2) as (sm & trace & Hmain).
  rewrite Hmain. exact (proj1 (Hscene _ _ _ Hmain)).
Defined.



